(** * Python-Azure-Demo: the tier / cost recommendation rules

    A shallow embedding of the decision logic of the demo scripts

    - [azure-storage-day1c.py]       (module [Storage]),
    - [vm-cost-optmiser-day1a.py]    (module [VM]),
    - [Gl-Demo1-Data-Visulation.py]  (module [Blob]),
    - [Azure-Cost-Optimisation.py]   (module [CostDashboard]),

    and of the reports the scripts build around those rules (modules
    [VMReport], [StorageReport] and [BlobCosts]), followed by the
    properties of the recommendation engine and of the reports.  The
    random data generation, the console output, the charts and the CSV
    export of the scripts are outside the model, as is
    [security-analy-day1b.py], which holds no recommendation rule.

    Modelling conventions.
    - A pandas [DataFrame] is a list of rows; [df.apply(f, axis=1)] is
      [map f], boolean indexing [df[mask]] is [filter], and
      [Series.sum()] adds the column up from [0], left to right.
    - Tier names are Python strings and stay strings here.
    - Day counts are the integers of the tables ([Z]).
    - Money and CPU percentages are Python floats.  Finite values are
      modelled as exact rationals ([Q]); the binary rounding of IEEE-754
      arithmetic is outside the model.  The non-finite results of a
      numpy division are kept explicit in [np_float64].  Equalities
      between amounts are therefore stated with [==] ([Qeq]). *)

From Stdlib Require Import ZArith QArith Qround Qabs Lqa Lia.
From Stdlib Require Import Bool List String Ascii Sorted OrderedTypeEx.
From Stdlib Require Import NArith Nnat DecimalString DecimalN.
From Stdlib Require PrimFloat.
Import ListNotations.

Local Open Scope Q_scope.

(** ** Python / numpy primitives shared by the scripts *)

(** [x < y] on floats. *)
Definition Qltb (x y : Q) : bool := negb (Qle_bool y x).

(** [x >= y] on floats. *)
Definition Qgeb (x y : Q) : bool := Qle_bool y x.

(** [Series.sum()] and the builtin [sum]: accumulate from [0]. *)
Definition series_sum (xs : list Q) : Q := fold_left Qplus xs 0.

(** The value of a numpy float64 expression: a finite number, an
    infinity or NaN. *)
Inductive np_float64 : Type :=
| Fin (q : Q)
| PosInf
| NegInf
| NaN.

(** [a / b] on numpy scalars.  A zero divisor does not raise: numpy
    emits a RuntimeWarning and returns [nan] for [0/0] and a signed
    infinity otherwise. *)
Definition np_truediv (a b : Q) : np_float64 :=
  if Qeq_bool b 0 then
    if Qeq_bool a 0 then NaN
    else if Qltb 0 a then PosInf else NegInf
  else Fin (a / b).

(** [x * k] for a numpy scalar [x] and a finite float [k]. *)
Definition np_mul (x : np_float64) (k : Q) : np_float64 :=
  match x with
  | Fin q => Fin (q * k)
  | PosInf => if Qeq_bool k 0 then NaN else if Qltb 0 k then PosInf else NegInf
  | NegInf => if Qeq_bool k 0 then NaN else if Qltb 0 k then NegInf else PosInf
  | NaN => NaN
  end.

Definition is_finite (x : np_float64) : bool :=
  match x with Fin _ => true | _ => false end.

(** Exceptions raised by the pure-Python code paths. *)
Inductive py_exn : Type :=
| ZeroDivisionError
| ValueError
| KeyError.

Inductive py_result (A : Type) : Type :=
| Ok (a : A)
| Raise (e : py_exn).
Arguments Ok {A} a.
Arguments Raise {A} e.

(** ** azure-storage-day1c.py *)

Module Storage.

(** One row of [storage_data] as the literal table declares it.  The
    derived column [cost_per_gb] feeds no recommendation and is left
    out. *)
Record Account : Type := mkAccount {
  account_name : string;
  size_gb : Z;
  monthly_cost : Q;
  current_tier : string;
  last_access_days : Z;
  transaction_count : Z
}.

(** The row after [storage_data['recommended_tier'] = ...]. *)
Record Recommended : Type := mkRecommended {
  account : Account;
  recommended_tier : string
}.

(** The row after [storage_data['potential_savings'] = ...]. *)
Record Scored : Type := mkScored {
  recommended : Recommended;
  potential_savings : Q
}.

Coercion account : Recommended >-> Account.
Coercion recommended : Scored >-> Recommended.

Definition recommend_tier (row : Account) : string :=
  if (last_access_days row <? 30)%Z then "Hot"
  else if (last_access_days row <? 90)%Z then "Cool"
  else "Archive".

Definition calculate_savings (row : Recommended) : Q :=
  let current := current_tier row in
  let recommended := recommended_tier row in
  let cost := monthly_cost row in
  if (current =? "Hot")%string && (recommended =? "Cool")%string then
    cost * 0.50
  else if (current =? "Hot")%string && (recommended =? "Archive")%string then
    cost * 0.80
  else if (current =? "Cool")%string && (recommended =? "Archive")%string then
    cost * 0.60
  else 0.

(** [storage_data.apply(recommend_tier, axis=1)] stored as a column. *)
Definition add_recommended_tier (df : list Account) : list Recommended :=
  map (fun row => mkRecommended row (recommend_tier row)) df.

(** [storage_data.apply(calculate_savings, axis=1)] stored as a column. *)
Definition add_potential_savings (df : list Recommended) : list Scored :=
  map (fun row => mkScored row (calculate_savings row)) df.

(** The table after both derived columns have been added. *)
Definition analyze (df : list Account) : list Scored :=
  add_potential_savings (add_recommended_tier df).

Definition needs_optimization (df : list Scored) : list Scored :=
  filter (fun row : Scored =>
            negb (current_tier row =? recommended_tier row)%string) df.

Definition total_cost (df : list Scored) : Q :=
  series_sum (map (fun row : Scored => monthly_cost row) df).

Definition total_savings (df : list Scored) : Q :=
  series_sum (map potential_savings df).

Definition annual_savings (df : list Scored) : Q :=
  total_savings df * 12.

(** The figure of the executive summary:
    [total_savings / total_cost * 100]. *)
Definition roi_percent (df : list Scored) : np_float64 :=
  np_mul (np_truediv (total_savings df) (total_cost df)) 100.

(** The literal table of the script. *)
Definition storage_data : list Account :=
  [ mkAccount "proddata01" 1250 125.50 "Hot" 2 15000;
    mkAccount "devlogs02" 45 8.90 "Hot" 5 2300;
    mkAccount "backups03" 3200 280.00 "Hot" 45 100;
    mkAccount "archives04" 8500 425.00 "Hot" 180 50;
    mkAccount "tempfiles05" 12 2.40 "Hot" 3 8900;
    mkAccount "webapp06" 890 98.00 "Hot" 1 45000;
    mkAccount "analytics07" 2100 189.00 "Cool" 90 200;
    mkAccount "media08" 5600 448.00 "Hot" 10 12000;
    mkAccount "reports09" 340 42.50 "Hot" 30 1500;
    mkAccount "userfiles10" 1500 165.00 "Cool" 120 400 ].

End Storage.

Coercion Storage.account : Storage.Recommended >-> Storage.Account.
Coercion Storage.recommended : Storage.Scored >-> Storage.Recommended.

(** ** vm-cost-optmiser-day1a.py *)

(** [a / b] on plain Python numbers: a zero divisor raises. *)
Definition py_truediv (a b : Q) : py_result Q :=
  if Qeq_bool b 0 then Raise ZeroDivisionError else Ok (a / b).

Module VM.

Definition calculate_potential_savings (current_cost reduction_percentage : Q) : Q :=
  let savings := current_cost * reduction_percentage in
  savings.

Definition STOP : string := "STOP - Extremely underutilized".
Definition DOWNSIZE : string := "DOWNSIZE - Consider smaller VM size".
Definition REVIEW : string := "REVIEW - Low utilization, monitor closely".
Definition OPTIMAL : string := "OPTIMAL - Good utilization".
Definition ALERT : string := "ALERT - High utilization, consider scaling up".

Definition recommend_action (cpu_avg : Q) (is_prod : bool) : string :=
  if Qltb cpu_avg 10 then
    if negb is_prod then STOP
    else DOWNSIZE
  else if Qgeb cpu_avg 10 && Qltb cpu_avg 20 then REVIEW
  else if Qgeb cpu_avg 20 && Qltb cpu_avg 60 then OPTIMAL
  else ALERT.

(** The [for] loop adds the samples up; the division by [len(values)]
    raises on an empty list. *)
Definition calculate_average (values : list Q) : py_result Q :=
  let total := fold_left Qplus values 0 in
  py_truediv total (inject_Z (Z.of_nat (List.length values))).

(** An entry of [vm_list]. *)
Record Entry : Type := mkEntry {
  name : string;
  cpu : Q;
  cost : Q
}.

(** The variables the batch [while] loop updates. *)
Record LoopState : Type := mkLoopState {
  index : nat;
  total_wasted_cost : Q
}.

Definition loop_init : LoopState := mkLoopState 0 0.

(** One iteration of [while index < len(vm_list)]; [None] when the
    loop condition is false. *)
Definition loop_body (vm_list : list Entry) (st : LoopState) : option LoopState :=
  match nth_error vm_list (index st) with
  | None => None
  | Some vm =>
      let total :=
        if Qltb (cpu vm) 15 && Qltb 50 (cost vm) then
          let waste := calculate_potential_savings (cost vm) 0.5 in
          total_wasted_cost st + waste
        else total_wasted_cost st in
      Some (mkLoopState (S (index st)) total)
  end.

(** The loop, run for at most [fuel] tests of its condition; [None]
    when the fuel runs out before the condition turns false. *)
Fixpoint batch_loop (fuel : nat) (vm_list : list Entry) (st : LoopState)
  : option LoopState :=
  match fuel with
  | O => None
  | S fuel' =>
      match loop_body vm_list st with
      | None => Some st
      | Some st' => batch_loop fuel' vm_list st'
      end
  end.

Definition vm_list : list Entry :=
  [ mkEntry "dev-vm-01" 8.5 120.00;
    mkEntry "prod-db-vm" 45.2 380.00;
    mkEntry "test-vm-03" 5.1 95.00 ].

Definition cpu_samples : list Q :=
  [8.2; 15.3; 10.1; 12.8; 9.4; 14.2; 11.5; 13.1].

End VM.

(** ** Gl-Demo1-Data-Visulation.py *)

Module Blob.

(** A row of [df] once Cell 3 has added [monthly_cost] and [size_gb]. *)
Record Row : Type := mkRow {
  blob_name : string;
  size_mb : Z;
  last_accessed_days : Z;
  access_tier : string;
  container : string;
  monthly_cost : Q;
  size_gb : Q
}.

(** A row of the exported [recommendations] table (Cell 7). *)
Record Recommendation : Type := mkRecommendation {
  blob : Row;
  recommended_tier : string;
  new_monthly_cost : Q;
  potential_savings : Q
}.

Definition hot_unused (df : list Row) : list Row :=
  filter (fun b => (access_tier b =? "Hot")%string
                   && (90 <? last_accessed_days b)%Z) df.

Definition cool_unused (df : list Row) : list Row :=
  filter (fun b => (access_tier b =? "Cool")%string
                   && (180 <? last_accessed_days b)%Z) df.

(** [savings], assigned only under [if len(hot_unused) > 0]. *)
Definition savings (df : list Row) : Q :=
  let current_cost := series_sum (map monthly_cost (hot_unused df)) in
  current_cost * 0.44.

(** [savings_archive], assigned only under [if len(cool_unused) > 0]. *)
Definition savings_archive (df : list Row) : Q :=
  let current_cost_cool := series_sum (map monthly_cost (cool_unused df)) in
  current_cost_cool * 0.90.

Definition total_monthly_savings (df : list Row) : Q :=
  (if (0 <? List.length (hot_unused df))%nat then savings df else 0)
  + (if (0 <? List.length (cool_unused df))%nat then savings_archive df else 0).

(** [total_monthly_savings / df['monthly_cost'].sum() * 100]. *)
Definition roi_percent (df : list Row) : np_float64 :=
  np_mul (np_truediv (total_monthly_savings df) (series_sum (map monthly_cost df))) 100.

(** The rows of [recommendations] as lines 259-265 build them, in the
    order of [hot_unused].  The script then reorders them with
    [sort_values('potential_savings', ascending=False)]; which rows the
    table holds and the sum of a column do not depend on that order. *)
Definition recommendations (df : list Row) : list Recommendation :=
  map (fun b => mkRecommendation b "Cool"
                  (monthly_cost b * 0.56) (monthly_cost b * 0.44))
      (hot_unused df).

(** [total_savings] of the final report (Cell 8). *)
Definition total_savings (df : list Row) : Q :=
  if (0 <? List.length (hot_unused df))%nat
  then series_sum (map potential_savings (recommendations df))
  else 0.

End Blob.

(** ** Azure-Cost-Optimisation.py (Cell 7) *)

(** Sequencing of code that may raise. *)
Definition py_bind {A B : Type} (m : py_result A) (k : A -> py_result B)
  : py_result B :=
  match m with
  | Ok a => k a
  | Raise e => Raise e
  end.

Notation "x <- m ;; k" := (py_bind m (fun x => k))
  (at level 61, m at next level, right associativity).

(** [x > k] for a numpy scalar [x]: false on NaN. *)
Definition np_gt (x : np_float64) (k : Q) : bool :=
  match x with
  | Fin q => Qltb k q
  | PosInf => true
  | NegInf => false
  | NaN => false
  end.

Module CostDashboard.

(** *** Format specification [.2f] and [float()] *)

(** Round to the nearest integer, ties to even: the rounding of the
    [f] presentation type. *)
Definition round_half_even (x : Q) : Z :=
  let f := Qfloor x in
  match Qcompare (x - inject_Z f) (1 # 2) with
  | Lt => f
  | Gt => (f + 1)%Z
  | Eq => if Z.even f then f else (f + 1)%Z
  end.

(** The decimal digits of a natural number. *)
Definition digits (n : N) : string := NilEmpty.string_of_uint (N.to_uint n).

(** Two decimal digits, zero-padded. *)
Definition pad2 (n : N) : string :=
  if (n <? 10)%N then String "0" (digits n) else digits n.

(** The number of hundredths that [.2f] prints for [x], without sign. *)
Definition cents (x : Q) : N := Z.to_N (round_half_even (Qabs x * 100)).

(** [f'{x:.2f}'] *)
Definition format_2f (x : Q) : string :=
  let c := cents x in
  ((if Qltb x 0 then "-" else "")
   ++ digits (c / 100) ++ "." ++ pad2 (c mod 100))%string.

(** [f'${x:.2f}'] *)
Definition format_money (x : Q) : string := String "$" (format_2f x).

(** [s.replace(c, '')] for a one-character [c]. *)
Fixpoint remove_char (c : ascii) (s : string) : string :=
  match s with
  | EmptyString => EmptyString
  | String a rest =>
      if Ascii.eqb a c then remove_char c rest
      else String a (remove_char c rest)
  end.

(** Cut [s] at its first ["."]: the part before it and, when there is
    one, the part after it. *)
Fixpoint split_point (s : string) : string * option string :=
  match s with
  | EmptyString => (EmptyString, None)
  | String a rest =>
      if Ascii.eqb a "." then (EmptyString, Some rest)
      else let (int_part, frac_part) := split_point rest in
           (String a int_part, frac_part)
  end.

Definition parse_digits (s : string) : option N :=
  option_map N.of_uint (NilEmpty.uint_of_string s).

(** An unsigned decimal literal [digits[.digits]] with at least one
    digit. *)
Definition parse_unsigned (s : string) : py_result Q :=
  let (int_part, frac) := split_point s in
  let frac_part := match frac with Some f => f | None => EmptyString end in
  if (String.length int_part + String.length frac_part =? 0)%nat
  then Raise ValueError
  else
    match parse_digits int_part, parse_digits frac_part with
    | Some i, Some f =>
        Ok (inject_Z (Z.of_N i)
            + inject_Z (Z.of_N f) / inject_Z (10 ^ Z.of_nat (String.length frac_part)))
    | _, _ => Raise ValueError
    end.

(** [float(s)] on the plain decimal literals [[+-]digits[.digits]].
    Python's [float] also reads exponents, [inf], [nan], underscores and
    surrounding blanks; those forms are not produced by [.2f] on a
    finite number and are rejected here. *)
Definition py_float (s : string) : py_result Q :=
  match s with
  | String "-" rest => v <- parse_unsigned rest ;; Ok (- v)
  | String "+" rest => parse_unsigned rest
  | _ => parse_unsigned s
  end.

(** *** The recommendation rules *)

(** A pandas Series indexed by service name, in iteration order. *)
Definition Series : Type := list (string * Q).

Fixpoint contains (s : Series) (key : string) : bool :=
  match s with
  | [] => false
  | (k, _) :: rest => (k =? key)%string || contains rest key
  end.

(** [s[key]]; a missing label raises [KeyError]. *)
Fixpoint getitem (s : Series) (key : string) : py_result Q :=
  match s with
  | [] => Raise KeyError
  | (k, v) :: rest => if (k =? key)%string then Ok v else getitem rest key
  end.

(** One dict of [recommendations].  The keys ['Category'], ['Issue'] and
    ['Action'] hold display text that no later computation reads; they
    are left out. *)
Record Recommendation : Type := mkRecommendation {
  Priority : string;
  Service : string;
  Potential_Savings : string
}.

(** 1. Check for high-cost services. *)
Definition high_cost (service_costs : Series) : list Recommendation :=
  flat_map (fun item : string * Q =>
    let (service, cost) := item in
    let pct_of_total :=
      np_mul (np_truediv cost (series_sum (map snd service_costs))) 100 in
    if np_gt pct_of_total 20
    then [mkRecommendation "HIGH" service (format_money (cost * 0.15))]
    else []) service_costs.

(** 2. Weekend usage. *)
Fixpoint weekend_usage (services : list string)
    (weekend_costs weekday_costs : Series) : py_result (list Recommendation) :=
  match services with
  | [] => Ok []
  | service :: rest =>
      here <-
        (if contains weekend_costs service && contains weekday_costs service
         then
           we <- getitem weekend_costs service ;;
           wd <- getitem weekday_costs service ;;
           let weekend_avg := we / 26 in
           let weekday_avg := wd / 64 in
           if Qltb (weekday_avg * 0.5) weekend_avg
           then
             let potential_savings := we * 0.6 in
             Ok [mkRecommendation "MEDIUM" service (format_money potential_savings)]
           else Ok []
         else Ok []) ;;
      more <- weekend_usage rest weekend_costs weekday_costs ;;
      Ok (here ++ more)
  end.

(** 3. Development environment costs. *)
Fixpoint dev_environment (dev_costs service_costs : Series)
  : py_result (list Recommendation) :=
  match dev_costs with
  | [] => Ok []
  | (service, cost) :: rest =>
      total <- getitem service_costs service ;;
      more <- dev_environment rest service_costs ;;
      if Qltb (total * 0.3) cost
      then
        let potential_savings := cost * 0.5 in
        Ok (mkRecommendation "MEDIUM" service (format_money potential_savings) :: more)
      else Ok more
  end.

(** 4. Growing costs. *)
Definition growing_costs (monthly_costs : list Q) : list Recommendation :=
  if (2 <=? List.length monthly_costs)%nat then
    let first_month_cost := hd 0 monthly_costs in
    let last_month_cost := last monthly_costs 0 in
    let growth_rate :=
      np_mul (np_truediv (last_month_cost - first_month_cost) first_month_cost) 100 in
    if np_gt growth_rate 10
    then [mkRecommendation "HIGH" "All Services" (format_money (last_month_cost * 0.1))]
    else []
  else [].

(** The list [recommendations] at the end of the four rules. *)
Definition recommendations (services : list string)
    (service_costs weekend_costs weekday_costs dev_costs : Series)
    (monthly_costs : list Q) : py_result (list Recommendation) :=
  r2 <- weekend_usage services weekend_costs weekday_costs ;;
  r3 <- dev_environment dev_costs service_costs ;;
  Ok (high_cost service_costs ++ r2 ++ r3 ++ growing_costs monthly_costs).

(** [[float(r['Potential_Savings'].replace('$', '').replace(',', ''))
      for r in recommendations]] *)
Fixpoint parsed_savings (recs : list Recommendation) : py_result (list Q) :=
  match recs with
  | [] => Ok []
  | r :: rest =>
      v <- py_float (remove_char "," (remove_char "$" (Potential_Savings r))) ;;
      vs <- parsed_savings rest ;;
      Ok (v :: vs)
  end.

(** [total_savings], assigned under [if recommendations:]. *)
Definition total_savings (recs : list Recommendation) : py_result Q :=
  vs <- parsed_savings recs ;;
  Ok (series_sum vs).

Definition services : list string :=
  [ "Virtual Machines"; "Storage"; "SQL Database"; "App Service";
    "Networking"; "Key Vault"; "Function App"; "Container Registry" ]%string.

End CostDashboard.

(** ** The reports around the rules *)

(** *** vm-cost-optmiser-day1a.py: cost impact and cost category *)

Module VMReport.

(** The figures printed under [if calculated_avg < 20]. *)
Record CostImpact : Type := mkCostImpact {
  downsize_savings : Q;
  stop_savings : Q;
  annual_savings : Q
}.

(** The cost impact analysis; [None] is the branch
    "VM utilization is acceptable". *)
Definition cost_impact (calculated_avg monthly_cost : Q) : option CostImpact :=
  if Qltb calculated_avg 20 then
    let downsize_savings := VM.calculate_potential_savings monthly_cost 0.50 in
    let stop_savings := VM.calculate_potential_savings monthly_cost 1.0 in
    let annual_savings := downsize_savings * 12 in
    Some (mkCostImpact downsize_savings stop_savings annual_savings)
  else None.

(** [cost_thresholds], the tuple (low, medium, high). *)
Definition cost_thresholds : Q * Q * Q := (100.0, 250.0, 500.0).

(** The category analysis: [(cost_category, priority)]. *)
Definition cost_category (thresholds : Q * Q * Q) (monthly_cost : Q)
  : string * string :=
  let '(low_threshold, medium_threshold, high_threshold) := thresholds in
  if Qltb monthly_cost low_threshold then
    ("Low Cost", "Monitor quarterly")%string
  else if Qgeb monthly_cost low_threshold && Qltb monthly_cost medium_threshold then
    ("Medium Cost", "Monitor monthly")%string
  else if Qgeb monthly_cost medium_threshold && Qltb monthly_cost high_threshold then
    ("High Cost", "Monitor weekly")%string
  else
    ("Very High Cost", "Monitor daily")%string.

End VMReport.

(** *** azure-storage-day1c.py: filters, extremes and the tier table *)

Module StorageReport.

Definition hot_tier_accounts (df : list Storage.Account) : list Storage.Account :=
  filter (fun row => (Storage.current_tier row =? "Hot")%string) df.

Definition large_accounts (df : list Storage.Account) : list Storage.Account :=
  filter (fun row => (1000 <? Storage.size_gb row)%Z) df.

Definition rarely_accessed (df : list Storage.Account) : list Storage.Account :=
  filter (fun row => (30 <? Storage.last_access_days row)%Z) df.

Definition optimization_candidates (df : list Storage.Account)
  : list Storage.Account :=
  filter (fun row => (Storage.current_tier row =? "Hot")%string
                     && (30 <? Storage.last_access_days row)%Z
                     && (500 <? Storage.size_gb row)%Z) df.

(** The scan behind [Series.idxmax()]: the position of the first
    occurrence of the largest value. *)
Fixpoint idxmax_from (best_i : nat) (best : Q) (i : nat) (xs : list Q) : nat :=
  match xs with
  | [] => best_i
  | x :: rest =>
      if Qltb best x then idxmax_from i x (S i) rest
      else idxmax_from best_i best (S i) rest
  end.

(** [Series.idxmax()]; an empty Series raises [ValueError]. *)
Definition idxmax (xs : list Q) : py_result nat :=
  match xs with
  | [] => Raise ValueError
  | x :: rest => Ok (idxmax_from 0 x 1 rest)
  end.

Fixpoint idxmin_from (best_i : nat) (best : Q) (i : nat) (xs : list Q) : nat :=
  match xs with
  | [] => best_i
  | x :: rest =>
      if Qltb x best then idxmin_from i x (S i) rest
      else idxmin_from best_i best (S i) rest
  end.

(** [Series.idxmin()]; an empty Series raises [ValueError]. *)
Definition idxmin (xs : list Q) : py_result nat :=
  match xs with
  | [] => Raise ValueError
  | x :: rest => Ok (idxmin_from 0 x 1 rest)
  end.

(** [df.loc[label]] on the default integer index. *)
Definition loc (df : list Storage.Account) (label : nat)
  : py_result Storage.Account :=
  match nth_error df label with
  | Some row => Ok row
  | None => Raise KeyError
  end.

(** [storage_data.loc[storage_data['monthly_cost'].idxmax()]] *)
Definition max_cost_account (df : list Storage.Account)
  : py_result Storage.Account :=
  label <- idxmax (map Storage.monthly_cost df) ;;
  loc df label.

(** [storage_data.loc[storage_data['monthly_cost'].idxmin()]] *)
Definition min_cost_account (df : list Storage.Account)
  : py_result Storage.Account :=
  label <- idxmin (map Storage.monthly_cost df) ;;
  loc df label.

(** A row of [tier_analysis]. *)
Record TierTotals : Type := mkTierTotals {
  Total_GB : Z;
  Total_Cost : Q;
  Account_Count : nat
}.

Definition add_account (t : TierTotals) (row : Storage.Account) : TierTotals :=
  mkTierTotals (Total_GB t + Storage.size_gb row)
               (Total_Cost t + Storage.monthly_cost row)
               (S (Account_Count t)).

Definition no_accounts : TierTotals := mkTierTotals 0 0 0.

(** Add [row] to the group of [key]; the groups stay sorted by key, as
    [groupby] presents them. *)
Fixpoint add_to_group (key : string) (row : Storage.Account)
    (groups : list (string * TierTotals)) : list (string * TierTotals) :=
  match groups with
  | [] => [(key, add_account no_accounts row)]
  | (k, t) :: rest =>
      match String.compare key k with
      | Eq => (k, add_account t row) :: rest
      | Lt => (key, add_account no_accounts row) :: groups
      | Gt => (k, t) :: add_to_group key row rest
      end
  end.

(** [storage_data.groupby('current_tier').agg({'size_gb': 'sum',
    'monthly_cost': 'sum', 'account_name': 'count'})] *)
Definition tier_analysis (df : list Storage.Account)
  : list (string * TierTotals) :=
  fold_left (fun groups row => add_to_group (Storage.current_tier row) row groups)
            df [].

(** The row of [tier_analysis] labelled [tier], when there is one. *)
Fixpoint group_of (tier : string) (groups : list (string * TierTotals))
  : option TierTotals :=
  match groups with
  | [] => None
  | (k, t) :: rest => if (k =? tier)%string then Some t else group_of tier rest
  end.

(** What a run of the script reports. *)
Record Report : Type := mkReport {
  avg_cost_per_gb : np_float64;
  most_expensive : Storage.Account;
  least_expensive : Storage.Account;
  table : list Storage.Scored;
  to_optimize : list Storage.Scored;
  monthly_savings : Q;
  yearly_savings : Q;
  roi : np_float64
}.

(** The script from the basic statistics to the executive summary, on
    the table [storage_data].  The column sums are numpy scalars, so the
    quotient of line 72 is nan or infinite on a zero size and raises
    nothing; the two extremes are looked up next (lines 76 and 79), then
    the derived columns are added and the report figures computed. *)
Definition analysis (storage_data : list Storage.Account) : py_result Report :=
  let total_storage := fold_left Z.add (map Storage.size_gb storage_data) 0%Z in
  let total_cost := series_sum (map Storage.monthly_cost storage_data) in
  let avg_cost_per_gb := np_truediv total_cost (inject_Z total_storage) in
  max_cost_account <- max_cost_account storage_data ;;
  min_cost_account <- min_cost_account storage_data ;;
  let table := Storage.analyze storage_data in
  let needs_optimization := Storage.needs_optimization table in
  let total_savings := Storage.total_savings table in
  let annual_savings := Storage.annual_savings table in
  Ok (mkReport avg_cost_per_gb max_cost_account min_cost_account table
        needs_optimization total_savings annual_savings
        (Storage.roi_percent table)).

End StorageReport.

(** *** Gl-Demo1-Data-Visulation.py: pricing the blobs (Cell 3) *)

Module BlobCosts.

(** A row of [df] as Cell 2 builds it. *)
Record RawBlob : Type := mkRawBlob {
  blob_name : string;
  size_mb : Z;
  last_accessed_days : Z;
  access_tier : string;
  container : string
}.

(** Azure pricing per GB and month. *)
Definition tier_costs : list (string * Q) :=
  [ ("Hot", 0.018); ("Cool", 0.01); ("Archive", 0.00099) ]%string.

(** [d[key]] on a dict; a missing key raises [KeyError]. *)
Fixpoint dict_getitem (d : list (string * Q)) (key : string) : py_result Q :=
  match d with
  | [] => Raise KeyError
  | (k, v) :: rest => if (k =? key)%string then Ok v else dict_getitem rest key
  end.

(** The lambda of Cell 3 and the two columns it leads to. *)
Definition price_blob (row : RawBlob) : py_result Blob.Row :=
  price <- dict_getitem tier_costs (access_tier row) ;;
  let monthly_cost := (inject_Z (size_mb row) / 1024) * price in
  let size_gb := inject_Z (size_mb row) / 1024 in
  Ok (Blob.mkRow (blob_name row) (size_mb row) (last_accessed_days row)
        (access_tier row) (container row) monthly_cost size_gb).

(** The lambda applied row by row, as [df.apply(..., axis=1)] does on a
    table with rows: the first unknown tier aborts it. *)
Fixpoint price_rows (data : list RawBlob) : py_result (list Blob.Row) :=
  match data with
  | [] => Ok []
  | row :: rest =>
      priced <- price_blob row ;;
      more <- price_rows rest ;;
      Ok (priced :: more)
  end.

(** Cell 3 on the whole table.  On a table without rows
    [df.apply(..., axis=1)] gives back a DataFrame instead of a column,
    and storing it as [df['monthly_cost']] raises [ValueError]. *)
Definition price_table (data : list RawBlob) : py_result (list Blob.Row) :=
  match data with
  | [] => Raise ValueError
  | _ :: _ => price_rows data
  end.

End BlobCosts.

(** ** Vocabulary of the specification *)

(** The transition table of the storage analyzer, keyed by
    (current tier, recommended tier): the three priced transitions that
    the branches of [Storage.calculate_savings] enumerate. *)
Definition transition_table : list ((string * string) * Q) :=
  [ (("Hot", "Cool"), 0.50);
    (("Hot", "Archive"), 0.80);
    (("Cool", "Archive"), 0.60) ]%string.

Fixpoint discount_fraction (table : list ((string * string) * Q))
    (current recommended : string) : option Q :=
  match table with
  | [] => None
  | ((c, r), d) :: rest =>
      if ((c =? current) && (r =? recommended))%string then Some d
      else discount_fraction rest current recommended
  end.

(** The ordering Hot < Cool < Archive on tier names. *)
Definition tier_rank (tier : string) : option nat :=
  if (tier =? "Hot")%string then Some 0%nat
  else if (tier =? "Cool")%string then Some 1%nat
  else if (tier =? "Archive")%string then Some 2%nat
  else None.

(** [no_colder a b]: both are tiers and [a] does not come after [b]. *)
Definition no_colder (a b : string) : Prop :=
  match tier_rank a, tier_rank b with
  | Some i, Some j => (i <= j)%nat
  | _, _ => False
  end.

(** The tier the blob dashboard recommends for one blob, in the words of
    the specification ([recommended_tier]): Cool for a blob that
    [hot_unused] selects (RECOMMENDATION 1), Archive for a blob that
    [cool_unused] selects (RECOMMENDATION 2), and the blob's own tier
    when neither filter selects it. *)
Definition recommended_tier_of (b : Blob.Row) : string :=
  if (Blob.access_tier b =? "Hot")%string && (90 <? Blob.last_accessed_days b)%Z
  then "Cool"
  else if (Blob.access_tier b =? "Cool")%string
          && (180 <? Blob.last_accessed_days b)%Z
  then "Archive"
  else Blob.access_tier b.

(** The amount that the text [f'{x:.2f}'] denotes: [x] rounded to two
    fractional digits. *)
Definition rounded_2f (x : Q) : Q :=
  let v := inject_Z (Z.of_N (CostDashboard.cents x)) / 100 in
  if Qltb x 0 then - v else v.

(** What one entry of [vm_list] adds to [total_wasted_cost]. *)
Definition waste_of (vm : VM.Entry) : Q :=
  if Qltb (VM.cpu vm) 15 && Qltb 50 (VM.cost vm)
  then VM.calculate_potential_savings (VM.cost vm) 0.5 else 0.

(** Helpers for the facts on [.2f] texts. *)

Definition is_digit (a : ascii) : bool :=
  match a with
  | "0" | "1" | "2" | "3" | "4" | "5" | "6" | "7" | "8" | "9" => true
  | _ => false
  end%char.

Fixpoint all_digits (s : string) : bool :=
  match s with
  | EmptyString => true
  | String a rest => is_digit a && all_digits rest
  end.

Definition pad2_ok (m : N) : bool :=
  match CostDashboard.parse_digits (CostDashboard.pad2 m) with
  | Some m' => (m' =? m)%N
  | None => false
  end && (String.length (CostDashboard.pad2 m) =? 2)%nat
  && all_digits (CostDashboard.pad2 m).


(** ** Vocabulary of the further properties *)

(** The test of the batch loop: [vm['cpu'] < 15 and vm['cost'] > 50]. *)
Definition is_wasting (vm : VM.Entry) : bool :=
  Qltb (VM.cpu vm) 15 && Qltb 50 (VM.cost vm).

(** Strict order of the group labels. *)
Definition key_lt (a b : string) : Prop := String.compare a b = Lt.

(** A group after the accounts [rows] have been added to it. *)
Definition with_rows (o : option StorageReport.TierTotals)
    (rows : list Storage.Account) : option StorageReport.TierTotals :=
  match rows with
  | [] => o
  | _ => Some (fold_left StorageReport.add_account rows
                 (match o with
                  | Some t => t
                  | None => StorageReport.no_accounts
                  end))
  end.

(** The same blob stored in another tier. *)
Definition in_tier (row : BlobCosts.RawBlob) (tier : string) : BlobCosts.RawBlob :=
  BlobCosts.mkRawBlob (BlobCosts.blob_name row) (BlobCosts.size_mb row)
    (BlobCosts.last_accessed_days row) tier (BlobCosts.container row).

(** The tiers that [tier_costs] prices. *)
Definition priced_tier (tier : string) : Prop :=
  In tier ["Hot"; "Cool"; "Archive"]%string.

(** A blob of the table of Cell 2 that is where the dashboard wants it:
    in a tier of [tier_costs] and selected by neither filter of Cell 5
    (Hot and accessed within 90 days, Cool and accessed within 180
    days, or archived). *)
Definition already_optimal (b : BlobCosts.RawBlob) : bool :=
  ((BlobCosts.access_tier b =? "Hot")%string
   && (BlobCosts.last_accessed_days b <=? 90)%Z)
  || ((BlobCosts.access_tier b =? "Cool")%string
      && (BlobCosts.last_accessed_days b <=? 180)%Z)
  || (BlobCosts.access_tier b =? "Archive")%string.

(** The test of rule 1 against the total [total] of all services:
    [(cost / total) * 100 > 20]. *)
Definition is_high_cost (total : Q) (item : string * Q) : bool :=
  np_gt (np_mul (np_truediv (snd item) total) 100) 20.

(** ** The same arithmetic on binary64 *)

(** The two float expressions the scenarios of the specification turn
    on, on IEEE-754 binary64 itself: they check the rational model
    against the machine arithmetic at those inputs. *)
Module Binary64.
Import PrimFloat.

#[local] Set Warnings "-inexact-float".

(** [monthly_cost * 0.44] *)
Definition potential_savings (monthly_cost : PrimFloat.float) : PrimFloat.float :=
  PrimFloat.mul monthly_cost 0.44%float.

(** [total_savings / total_cost * 100] *)
Definition roi_percent (total_savings total_cost : PrimFloat.float)
  : PrimFloat.float :=
  PrimFloat.mul (PrimFloat.div total_savings total_cost) 100%float.

End Binary64.

(** ** Sample inputs *)

(** A Hot blob of 1 GB last read exactly 90 days ago, and a Cool one
    last read exactly 180 days ago, priced as Cell 3 prices them. *)
Definition hot_blob_day_90 : Blob.Row :=
  Blob.mkRow "backup-0.zip" 1024 90 "Hot" "backups" 0.018 1.

Definition cool_blob_day_180 : Blob.Row :=
  Blob.mkRow "log-0.txt" 1024 180 "Cool" "logs" 0.01 1.

(** The record ["blob-1"] of the specification's scenario: Hot, monthly
    cost 100.0, with the recency signal left open. *)
Definition blob_1 (size_mb : Z) (container : string) (size_gb : Q)
    (recency_signal : Z) : Blob.Row :=
  Blob.mkRow "blob-1" size_mb recency_signal "Hot" container 100.0 size_gb.

(** One weekday of production costs for two services. *)
Definition two_service_costs : CostDashboard.Series :=
  [ ("Virtual Machines", 100.03); ("Storage", 100.03) ]%string.

(** Six services, four of them above a fifth of the total. *)
Definition six_service_costs : CostDashboard.Series :=
  [ ("Virtual Machines", 21); ("Storage", 21); ("SQL Database", 21);
    ("App Service", 21); ("Networking", 8); ("Key Vault", 8) ]%string.



(** * Properties *)

(** ** Comparisons and sums *)

Lemma Qltb_lt (x y : Q) : Qltb x y = true <-> x < y.
Proof.
  unfold Qltb. rewrite negb_true_iff, <- not_true_iff_false, Qle_bool_iff.
  split; [apply Qnot_le_lt | apply Qlt_not_le].
Qed.

Lemma Qltb_ge (x y : Q) : Qltb x y = false <-> y <= x.
Proof.
  unfold Qltb. rewrite negb_false_iff. apply Qle_bool_iff.
Qed.

Lemma Qgeb_ge (x y : Q) : Qgeb x y = true <-> y <= x.
Proof. apply Qle_bool_iff. Qed.

Lemma Qeq_bool_false (x y : Q) : Qeq_bool x y = false <-> ~ x == y.
Proof.
  rewrite <- not_true_iff_false, Qeq_bool_iff. tauto.
Qed.

Lemma fold_left_Qplus (xs : list Q) (a : Q) :
  fold_left Qplus xs a == a + fold_left Qplus xs 0.
Proof.
  revert a. induction xs as [|x xs IH]; intros a; simpl.
  - ring.
  - rewrite IH, (IH (0 + x)). ring.
Qed.

Lemma series_sum_nil : series_sum [] = 0.
Proof. reflexivity. Qed.

Lemma series_sum_cons (x : Q) (xs : list Q) :
  series_sum (x :: xs) == x + series_sum xs.
Proof.
  unfold series_sum. simpl. rewrite fold_left_Qplus. ring.
Qed.

Lemma series_sum_app (xs ys : list Q) :
  series_sum (xs ++ ys) == series_sum xs + series_sum ys.
Proof.
  induction xs as [|x xs IH]; simpl.
  - rewrite series_sum_nil. ring.
  - rewrite !series_sum_cons, IH. ring.
Qed.

Lemma series_sum_nonneg (xs : list Q) :
  Forall (fun x => 0 <= x) xs -> 0 <= series_sum xs.
Proof.
  induction 1 as [|x xs Hx _ IH].
  - rewrite series_sum_nil. apply Qle_refl.
  - rewrite series_sum_cons.
    setoid_replace 0 with (0 + 0) by ring. now apply Qplus_le_compat.
Qed.

(** A sum of non-negative amounts is zero only when every amount is. *)
Lemma series_sum_zero_inv (xs : list Q) :
  Forall (fun x => 0 <= x) xs -> series_sum xs == 0 ->
  Forall (fun x => x == 0) xs.
Proof.
  induction 1 as [|x xs Hx Hxs IH]; intros Hsum; constructor.
  - rewrite series_sum_cons in Hsum.
    pose proof (series_sum_nonneg xs Hxs). lra.
  - apply IH. rewrite series_sum_cons in Hsum.
    pose proof (series_sum_nonneg xs Hxs). lra.
Qed.


(** ** numpy division *)


Lemma np_truediv_zero_zero (a b : Q) :
  a == 0 -> b == 0 -> np_truediv a b = NaN.
Proof.
  intros Ha Hb. unfold np_truediv.
  apply Qeq_bool_iff in Ha, Hb. now rewrite Ha, Hb.
Qed.


Lemma not_finite_cases (x : np_float64) :
  is_finite x = false <-> x = NaN \/ x = PosInf \/ x = NegInf.
Proof.
  destruct x; simpl; split; intros H; auto; try discriminate;
    destruct H as [H|[H|H]]; discriminate.
Qed.

Example storage_run :
  map (fun r : Storage.Scored => Storage.recommended_tier r) (Storage.analyze Storage.storage_data)
  = ["Hot"; "Hot"; "Cool"; "Archive"; "Hot"; "Hot"; "Archive"; "Hot"; "Cool"; "Archive"]%string.
Proof. reflexivity. Qed.

(** ** Storage analyzer: tiers and savings *)

Section StorageFacts.
Import Storage.

Ltac tier_cases :=
  repeat match goal with
  | |- context [String.eqb ?a ?b] =>
      destruct (String.eqb_spec a b); simpl; try congruence
  end.

(** [recommend_tier] is the interval lookup
    [(-inf,30) -> Hot, [30,90) -> Cool, [90,inf) -> Archive]. *)
Lemma recommend_tier_intervals (row : Account) :
  ((last_access_days row < 30)%Z /\ recommend_tier row = "Hot"%string)
  \/ ((30 <= last_access_days row < 90)%Z /\ recommend_tier row = "Cool"%string)
  \/ ((90 <= last_access_days row)%Z /\ recommend_tier row = "Archive"%string).
Proof.
  unfold recommend_tier.
  destruct (Z.ltb_spec (last_access_days row) 30);
    destruct (Z.ltb_spec (last_access_days row) 90); auto; right; auto.
Qed.

(** A signal equal to a threshold falls under the rule that starts
    there. *)
Lemma recommend_tier_boundaries (row : Account) :
  (last_access_days row = 30%Z -> recommend_tier row = "Cool"%string)
  /\ (last_access_days row = 90%Z -> recommend_tier row = "Archive"%string).
Proof.
  unfold recommend_tier. split; intros ->; reflexivity.
Qed.

(** The branches of [calculate_savings] are a lookup in
    [transition_table]. *)
Lemma calculate_savings_table (row : Recommended) :
  calculate_savings row =
  match discount_fraction transition_table
          (current_tier row) (recommended_tier row) with
  | Some d => monthly_cost row * d
  | None => 0
  end.
Proof.
  unfold calculate_savings, transition_table.
  cbn [discount_fraction].
  rewrite !(String.eqb_sym _ (current_tier row)),
          !(String.eqb_sym _ (recommended_tier row)).
  destruct (current_tier row =? "Hot")%string eqn:Hh;
    destruct (recommended_tier row =? "Cool")%string eqn:Hc;
    destruct (recommended_tier row =? "Archive")%string eqn:Ha;
    destruct (current_tier row =? "Cool")%string eqn:Hcc; simpl; reflexivity.
Qed.

Lemma calculate_savings_same_tier (row : Recommended) :
  current_tier row = recommended_tier row -> calculate_savings row = 0.
Proof.
  intros H. unfold calculate_savings. rewrite H. tier_cases.
Qed.

Lemma calculate_savings_nonneg (row : Recommended) :
  0 <= monthly_cost row -> 0 <= calculate_savings row.
Proof.
  intros H. unfold calculate_savings.
  repeat match goal with
  | |- context [if ?b then _ else _] => destruct b
  end; lra.
Qed.

Lemma needs_optimization_In (df : list Scored) (row : Scored) :
  In row (needs_optimization df) <->
  In row df /\ current_tier row <> recommended_tier row.
Proof.
  unfold needs_optimization. rewrite filter_In.
  destruct (String.eqb_spec (current_tier row) (recommended_tier row));
    simpl; intuition congruence.
Qed.

(** Rows left out of the report contribute nothing to the total. *)
Lemma total_savings_needs_optimization (df : list Recommended) :
  total_savings (add_potential_savings df)
  == total_savings (needs_optimization (add_potential_savings df)).
Proof.
  unfold total_savings.
  induction df as [|row df IH]; simpl.
  - reflexivity.
  - destruct (String.eqb_spec (current_tier row) (recommended_tier row)) as [E|E];
      simpl; rewrite !series_sum_cons.
    + rewrite (calculate_savings_same_tier row E), IH. ring.
    + rewrite IH. reflexivity.
Qed.

End StorageFacts.

(** ** VM optimizer: actions, average and the batch loop *)

Section VMFacts.
Import VM.

Ltac q_cases :=
  repeat match goal with
  | |- context [Qltb ?a ?b] =>
      let E := fresh "E" in
      destruct (Qltb a b) eqn:E;
      [apply Qltb_lt in E | apply Qltb_ge in E]
  | |- context [Qgeb ?a ?b] =>
      let E := fresh "E" in
      destruct (Qgeb a b) eqn:E;
      [apply Qgeb_ge in E
      | apply not_true_iff_false in E; rewrite Qgeb_ge in E]
  end.

(** [recommend_action] as an interval lookup on the CPU average. *)
Lemma recommend_action_intervals (cpu_avg : Q) (is_prod : bool) :
  (cpu_avg < 10
   /\ recommend_action cpu_avg is_prod = if is_prod then DOWNSIZE else STOP)
  \/ (10 <= cpu_avg < 20 /\ recommend_action cpu_avg is_prod = REVIEW)
  \/ (20 <= cpu_avg < 60 /\ recommend_action cpu_avg is_prod = OPTIMAL)
  \/ (60 <= cpu_avg /\ recommend_action cpu_avg is_prod = ALERT).
Proof.
  unfold recommend_action. q_cases; simpl;
    first
      [ exfalso; lra
      | left; split; [lra | destruct is_prod; reflexivity]
      | right; left; split; [lra | reflexivity]
      | right; right; left; split; [lra | reflexivity]
      | right; right; right; split; [lra | reflexivity] ].
Qed.

(** The CPU thresholds belong to the rule that starts at them. *)
Lemma recommend_action_boundaries (cpu_avg : Q) (is_prod : bool) :
  (cpu_avg == 10 -> recommend_action cpu_avg is_prod = REVIEW)
  /\ (cpu_avg == 20 -> recommend_action cpu_avg is_prod = OPTIMAL)
  /\ (cpu_avg == 60 -> recommend_action cpu_avg is_prod = ALERT).
Proof.
  destruct (recommend_action_intervals cpu_avg is_prod)
    as [[H E]|[[H E]|[[H E]|[H E]]]];
    repeat split; intros Hc; try exact E; lra.
Qed.

Lemma calculate_average_nonempty (v : Q) (values : list Q) :
  exists average,
    calculate_average (v :: values) = Ok average
    /\ average * inject_Z (Z.of_nat (List.length (v :: values)))
       == series_sum (v :: values).
Proof.
  unfold calculate_average, py_truediv.
  set (n := inject_Z (Z.of_nat (List.length (v :: values)))).
  assert (Hn : ~ n == 0).
  { unfold n, Qeq. simpl. lia. }
  destruct (Qeq_bool n 0) eqn:E.
  - apply Qeq_bool_iff in E. contradiction.
  - eexists. split; [reflexivity|]. unfold series_sum. now field.
Qed.

Lemma skipn_nth_error {A : Type} (l : list A) (i : nat) (x : A) :
  nth_error l i = Some x -> skipn i l = x :: skipn (S i) l.
Proof.
  revert i. induction l as [|a l IH]; intros [|i] H; simpl in *;
    try discriminate.
  - now inversion H.
  - now apply IH.
Qed.

(** The loop started at [index = i] ends with [index = len(vm_list)]
    and has added the waste of every remaining entry. *)
Lemma batch_loop_from (vm_list : list Entry) (fuel i : nat) (acc : Q) :
  (i <= List.length vm_list)%nat ->
  (List.length vm_list - i < fuel)%nat ->
  exists total,
    batch_loop fuel vm_list (mkLoopState i acc)
    = Some (mkLoopState (List.length vm_list) total)
    /\ total == acc + series_sum (map waste_of (skipn i vm_list)).
Proof.
  revert i acc. induction fuel as [|fuel IH]; intros i acc Hi Hf; [lia|].
  simpl. unfold loop_body. simpl.
  destruct (nth_error vm_list i) as [vm|] eqn:E.
  - assert (Hlt : (i < List.length vm_list)%nat)
      by (apply nth_error_Some; congruence).
    destruct (IH (S i)
                (if Qltb (cpu vm) 15 && Qltb 50 (cost vm)
                 then acc + calculate_potential_savings (cost vm) 0.5
                 else acc)) as [total [Hrun Htot]]; [lia | lia |].
    exists total. split; [exact Hrun|].
    rewrite Htot, (skipn_nth_error _ _ _ E). simpl map.
    rewrite series_sum_cons. unfold waste_of.
    destruct (Qltb (cpu vm) 15 && Qltb 50 (cost vm)); ring.
  - apply nth_error_None in E.
    assert (i = List.length vm_list) by lia. subst i.
    exists acc. split; [reflexivity|].
    rewrite skipn_all. simpl map. rewrite series_sum_nil. ring.
Qed.

(** The batch loop terminates on every list. *)
Lemma batch_loop_terminates (vm_list : list Entry) :
  exists total,
    batch_loop (S (List.length vm_list)) vm_list loop_init
    = Some (mkLoopState (List.length vm_list) total)
    /\ total == series_sum (map waste_of vm_list).
Proof.
  destruct (batch_loop_from vm_list (S (List.length vm_list)) 0 0)
    as [total [Hrun Htot]]; [lia | lia |].
  exists total. split; [exact Hrun|]. rewrite Htot. simpl. ring.
Qed.

End VMFacts.

(** ** Cost dashboard: the text of an amount and its value *)

Section FormatFacts.
Import CostDashboard.

Lemma string_of_uint_digits (d : Decimal.uint) :
  all_digits (NilEmpty.string_of_uint d) = true.
Proof. induction d; simpl; auto. Qed.

Lemma digits_all_digits (n : N) : all_digits (digits n) = true.
Proof. apply string_of_uint_digits. Qed.

Lemma remove_char_app (c : ascii) (s t : string) :
  remove_char c (s ++ t) = (remove_char c s ++ remove_char c t)%string.
Proof.
  induction s as [|a s IH]; simpl; [reflexivity|].
  destruct (Ascii.eqb a c); simpl; now rewrite IH.
Qed.

Lemma remove_char_digits (c : ascii) (s : string) :
  is_digit c = false -> all_digits s = true -> remove_char c s = s.
Proof.
  intros Hc. induction s as [|a s IH]; simpl; [reflexivity|].
  intros H. apply andb_true_iff in H as [Ha Hs].
  destruct (Ascii.eqb_spec a c) as [->|_]; [congruence|].
  now rewrite IH.
Qed.

Lemma split_point_digits (ds fs : string) :
  all_digits ds = true ->
  split_point (ds ++ String "." fs) = (ds, Some fs).
Proof.
  induction ds as [|a ds IH]; simpl; [reflexivity|].
  intros H. apply andb_true_iff in H as [Ha Hs].
  destruct (Ascii.eqb_spec a ".") as [->|_]; [discriminate|].
  now rewrite IH.
Qed.

Lemma parse_digits_digits (n : N) : parse_digits (digits n) = Some n.
Proof.
  unfold parse_digits, digits.
  rewrite NilEmpty.usu. simpl. now rewrite DecimalN.Unsigned.of_to.
Qed.

Lemma pad2_table :
  forallb pad2_ok (map N.of_nat (seq 0 100)) = true.
Proof. vm_compute. reflexivity. Qed.

Lemma pad2_spec (m : N) :
  (m < 100)%N ->
  parse_digits (pad2 m) = Some m
  /\ String.length (pad2 m) = 2%nat
  /\ all_digits (pad2 m) = true.
Proof.
  intros Hm.
  assert (Hin : In m (map N.of_nat (seq 0 100))).
  { apply in_map_iff. exists (N.to_nat m). split; [apply Nnat.N2Nat.id|].
    apply in_seq. lia. }
  pose proof (proj1 (forallb_forall _ _) pad2_table m Hin) as H.
  unfold pad2_ok in H.
  apply andb_true_iff in H as [H Hd].
  apply andb_true_iff in H as [Hp Hl].
  destruct (parse_digits (pad2 m)) as [m'|]; [|discriminate].
  apply N.eqb_eq in Hp. apply Nat.eqb_eq in Hl. subst. auto.
Qed.

Lemma py_float_unsigned (a : ascii) (rest : string) :
  is_digit a = true \/ a = "."%char ->
  py_float (String a rest) = parse_unsigned (String a rest).
Proof.
  intros [H| ->]; [|reflexivity].
  destruct a as [[|] [|] [|] [|] [|] [|] [|] [|]];
    try discriminate H; reflexivity.
Qed.

Lemma digits_then_point (ds fs : string) :
  all_digits ds = true ->
  exists a rest,
    (ds ++ String "." fs)%string = String a rest
    /\ (is_digit a = true \/ a = "."%char).
Proof.
  destruct ds as [|a ds]; simpl; intros H.
  - eauto.
  - apply andb_true_iff in H as [Ha _]. eauto.
Qed.

Lemma hundredths_value (c : N) :
  inject_Z (Z.of_N (c / 100))
  + inject_Z (Z.of_N (c mod 100)) / inject_Z (10 ^ Z.of_nat 2)
  == inject_Z (Z.of_N c) / 100.
Proof.
  assert (E : Z.of_N c = (100 * Z.of_N (c / 100) + Z.of_N (c mod 100))%Z).
  { rewrite (N.div_mod c 100) at 1 by discriminate. lia. }
  rewrite E, inject_Z_plus, inject_Z_mult.
  change (inject_Z (10 ^ Z.of_nat 2)) with 100.
  change (inject_Z 100) with 100.
  field.
Qed.

Lemma parse_unsigned_2f (c : N) :
  exists v,
    parse_unsigned (digits (c / 100) ++ String "." (pad2 (c mod 100))) = Ok v
    /\ v == inject_Z (Z.of_N c) / 100.
Proof.
  destruct (pad2_spec (c mod 100)) as [Hp [Hl Hd]].
  { apply N.mod_lt. discriminate. }
  unfold parse_unsigned.
  rewrite (split_point_digits _ _ (digits_all_digits _)).
  rewrite Hl, parse_digits_digits, Hp.
  rewrite Nat.add_comm. simpl Nat.eqb. cbv iota.
  eexists. split; [reflexivity|]. apply hundredths_value.
Qed.

Lemma py_float_format_2f (x : Q) :
  exists v, py_float (format_2f x) = Ok v /\ v == rounded_2f x.
Proof.
  unfold format_2f, rounded_2f.
  destruct (parse_unsigned_2f (cents x)) as [v [Hv Ev]].
  destruct (Qltb x 0).
  - exists (- v). split.
    + change (py_float (String "-" (digits (cents x / 100)
                 ++ String "." (pad2 (cents x mod 100))))
              = Ok (- v)).
      simpl. rewrite Hv. reflexivity.
    + now rewrite Ev.
  - exists v. split; [|exact Ev].
    change (py_float (digits (cents x / 100)
              ++ String "." (pad2 (cents x mod 100))) = Ok v).
    destruct (digits_then_point (digits (cents x / 100))
                (pad2 (cents x mod 100)) (digits_all_digits _))
      as [a [rest [E Ha]]].
    rewrite E in *. now rewrite py_float_unsigned.
Qed.

Lemma format_2f_no_symbol (c : ascii) (x : Q) :
  is_digit c = false -> c <> "-"%char -> c <> "."%char ->
  remove_char c (format_2f x) = format_2f x.
Proof.
  intros Hd Hm Hp. unfold format_2f.
  rewrite !remove_char_app.
  rewrite (remove_char_digits c (digits _) Hd (digits_all_digits _)).
  destruct (pad2_spec (cents x mod 100)) as [_ [_ Hpad]].
  { apply N.mod_lt. discriminate. }
  rewrite (remove_char_digits c (pad2 _) Hd Hpad).
  f_equal; [|f_equal].
  - destruct (Qltb x 0); cbn [remove_char]; [|reflexivity].
    destruct (Ascii.eqb_spec "-" c); congruence.
  - cbn [remove_char]. destruct (Ascii.eqb_spec "." c); congruence.
Qed.

(** Reading a formatted amount back gives the amount rounded to two
    fractional digits. *)
Lemma parse_format_money (x : Q) :
  exists v,
    py_float (remove_char "," (remove_char "$" (format_money x))) = Ok v
    /\ v == rounded_2f x.
Proof.
  unfold format_money. simpl remove_char.
  rewrite !format_2f_no_symbol by (reflexivity || discriminate).
  apply py_float_format_2f.
Qed.

(** [round_half_even] is within one half of its argument. *)
Lemma round_half_even_near (x : Q) :
  Qabs (inject_Z (round_half_even x) - x) <= 1 # 2.
Proof.
  unfold round_half_even.
  pose proof (Qfloor_le x) as Hlo. pose proof (Qlt_floor x) as Hhi.
  rewrite inject_Z_plus in Hhi. change (inject_Z 1) with 1 in Hhi.
  apply Qabs_Qle_condition.
  destruct (Qcompare_spec (x - inject_Z (Qfloor x)) (1 # 2)) as [E|E|E].
  - destruct (Z.even (Qfloor x));
      rewrite ?inject_Z_plus; change (inject_Z 1) with 1; split; lra.
  - split; lra.
  - rewrite inject_Z_plus. change (inject_Z 1) with 1. split; lra.
Qed.

Lemma round_half_even_nonneg (x : Q) :
  0 <= x -> (0 <= round_half_even x)%Z.
Proof.
  intros Hx. unfold round_half_even.
  assert (H0 : (0 <= Qfloor x)%Z).
  { change 0%Z with (Qfloor 0). now apply Qfloor_resp_le. }
  destruct (Qcompare _ _); [destruct (Z.even _)| |]; lia.
Qed.

(** [.2f] prints the amount to the nearest hundredth. *)
Lemma rounded_2f_near (x : Q) :
  Qabs (rounded_2f x - x) <= 1 # 200.
Proof.
  unfold rounded_2f, cents.
  pose proof (round_half_even_near (Qabs x * 100)) as H.
  pose proof (round_half_even_nonneg (Qabs x * 100)) as Hn.
  assert (Habs : 0 <= Qabs x * 100).
  { pose proof (Qabs_nonneg x). nra. }
  specialize (Hn Habs).
  rewrite Z2N.id by exact Hn.
  set (r := inject_Z (round_half_even (Qabs x * 100))) in *.
  apply Qabs_Qle_condition in H. apply Qabs_Qle_condition.
  cbv zeta. unfold Qdiv. change (/ 100) with (1 # 100).
  destruct (Qltb x 0) eqn:E.
  - apply Qltb_lt in E.
    rewrite (Qabs_neg x) in H by lra. split; lra.
  - apply Qltb_ge in E.
    rewrite (Qabs_pos x) in H by lra. split; lra.
Qed.

End FormatFacts.

(** ** Cost dashboard: the total of the parsed amounts *)

Section DashboardFacts.
Import CostDashboard.

Lemma series_sum_Qeq (xs ys : list Q) :
  Forall2 Qeq xs ys -> series_sum xs == series_sum ys.
Proof.
  induction 1 as [|x y xs ys Hxy _ IH].
  - reflexivity.
  - rewrite !series_sum_cons, Hxy, IH. reflexivity.
Qed.

(** Parsing a list of formatted amounts never raises and yields the
    rounded amounts. *)
Lemma parsed_savings_formatted (recs : list Recommendation) (amounts : list Q) :
  Forall2 (fun r x => Potential_Savings r = format_money x) recs amounts ->
  exists vs,
    parsed_savings recs = Ok vs
    /\ Forall2 Qeq vs (map rounded_2f amounts).
Proof.
  induction 1 as [|r x recs amounts Hr _ [vs [Hvs Evs]]]; simpl.
  - exists []. split; [reflexivity | constructor].
  - destruct (parse_format_money x) as [v [Hv Ev]].
    rewrite Hr, Hv. simpl. rewrite Hvs. simpl.
    exists (v :: vs). split; [reflexivity|]. now constructor.
Qed.

Lemma total_savings_formatted (recs : list Recommendation) (amounts : list Q) :
  Forall2 (fun r x => Potential_Savings r = format_money x) recs amounts ->
  exists total,
    total_savings recs = Ok total
    /\ total == series_sum (map rounded_2f amounts).
Proof.
  intros H. destruct (parsed_savings_formatted recs amounts H) as [vs [Hvs Evs]].
  unfold total_savings. rewrite Hvs. simpl.
  eexists. split; [reflexivity|]. now apply series_sum_Qeq.
Qed.






End DashboardFacts.

(** ** Blob dashboard: the two filters and their savings *)

Section BlobFacts.
Import Blob.

Lemma hot_unused_In (df : list Row) (b : Row) :
  In b (hot_unused df) <->
  In b df /\ access_tier b = "Hot"%string /\ (90 < last_accessed_days b)%Z.
Proof.
  unfold hot_unused. rewrite filter_In, andb_true_iff, String.eqb_eq, Z.ltb_lt.
  tauto.
Qed.

Lemma cool_unused_In (df : list Row) (b : Row) :
  In b (cool_unused df) <->
  In b df /\ access_tier b = "Cool"%string /\ (180 < last_accessed_days b)%Z.
Proof.
  unfold cool_unused. rewrite filter_In, andb_true_iff, String.eqb_eq, Z.ltb_lt.
  tauto.
Qed.

(** The filters are strict: a blob last read exactly 90 (180) days ago
    is never selected. *)
Lemma hot_unused_strict (df : list Row) (b : Row) :
  last_accessed_days b = 90%Z -> ~ In b (hot_unused df).
Proof.
  intros H Hin. apply hot_unused_In in Hin. lia.
Qed.

Lemma cool_unused_strict (df : list Row) (b : Row) :
  last_accessed_days b = 180%Z -> ~ In b (cool_unused df).
Proof.
  intros H Hin. apply cool_unused_In in Hin. lia.
Qed.

Lemma recommendations_In (df : list Row) (r : Recommendation) :
  In r (recommendations df) ->
  In (blob r) (hot_unused df)
  /\ recommended_tier r = "Cool"%string
  /\ potential_savings r = monthly_cost (blob r) * 0.44.
Proof.
  unfold recommendations. rewrite in_map_iff.
  intros [b [<- Hb]]. simpl. auto.
Qed.

Lemma filter_costs_nonneg (f : Row -> bool) (df : list Row) :
  Forall (fun b => 0 <= monthly_cost b) df ->
  Forall (fun x => 0 <= x) (map monthly_cost (filter f df)).
Proof.
  induction 1 as [|b df Hb _ IH]; simpl.
  - constructor.
  - destruct (f b); simpl; [constructor|]; assumption.
Qed.

Lemma total_monthly_savings_nonneg (df : list Row) :
  Forall (fun b => 0 <= monthly_cost b) df ->
  0 <= total_monthly_savings df.
Proof.
  intros H. unfold total_monthly_savings, savings, savings_archive.
  pose proof (series_sum_nonneg _ (filter_costs_nonneg
    (fun b => (access_tier b =? "Hot")%string && (90 <? last_accessed_days b)%Z)
    df H)) as Hh.
  pose proof (series_sum_nonneg _ (filter_costs_nonneg
    (fun b => (access_tier b =? "Cool")%string && (180 <? last_accessed_days b)%Z)
    df H)) as Hc.
  fold (hot_unused df) in Hh. fold (cool_unused df) in Hc.
  destruct (0 <? List.length (hot_unused df))%nat;
    destruct (0 <? List.length (cool_unused df))%nat; lra.
Qed.

End BlobFacts.

(** ** Return on investment against a zero total cost *)





(** ** Cross-checks on binary64 *)

Section Binary64Facts.
Import PrimFloat.

(** On binary64 the product of the blob scenario is exactly 44.0. *)
Example binary64_blob_scenario :
  PrimFloat.eqb (Binary64.potential_savings 100%float) 44%float = true.
Proof. reflexivity. Qed.

(** On binary64 the quotient of two zeros is NaN, and stays NaN when
    scaled to a percentage. *)
Example binary64_roi_of_zero_cost :
  PrimFloat.is_nan (Binary64.roi_percent 0%float 0%float) = true.
Proof. reflexivity. Qed.

End Binary64Facts.

(** ** Storage analyzer: the extremes exist on a table with rows *)

Lemma idxmax_from_bound (xs : list Q) (best_i i : nat) (best : Q) :
  (best_i < i)%nat ->
  (StorageReport.idxmax_from best_i best i xs < i + List.length xs)%nat.
Proof.
  revert best_i i best. induction xs as [|x rest IH]; intros best_i i best Hlt.
  - simpl. lia.
  - simpl. destruct (Qltb best x).
    + specialize (IH i (S i) x). lia.
    + specialize (IH best_i (S i) best). lia.
Qed.

Lemma idxmin_from_bound (xs : list Q) (best_i i : nat) (best : Q) :
  (best_i < i)%nat ->
  (StorageReport.idxmin_from best_i best i xs < i + List.length xs)%nat.
Proof.
  revert best_i i best. induction xs as [|x rest IH]; intros best_i i best Hlt.
  - simpl. lia.
  - simpl. destruct (Qltb x best).
    + specialize (IH i (S i) x). lia.
    + specialize (IH best_i (S i) best). lia.
Qed.

Lemma max_cost_account_found (a : Storage.Account) (rest : list Storage.Account) :
  exists row, StorageReport.max_cost_account (a :: rest) = Ok row.
Proof.
  unfold StorageReport.max_cost_account, StorageReport.idxmax,
    StorageReport.loc.
  simpl map. simpl py_bind.
  pose proof (idxmax_from_bound (map Storage.monthly_cost rest) 0 1
                (Storage.monthly_cost a)) as Hb.
  rewrite length_map in Hb.
  destruct (nth_error (a :: rest) _) as [row|] eqn:E; [eauto|].
  apply nth_error_None in E. simpl in E. lia.
Qed.

Lemma min_cost_account_found (a : Storage.Account) (rest : list Storage.Account) :
  exists row, StorageReport.min_cost_account (a :: rest) = Ok row.
Proof.
  unfold StorageReport.min_cost_account, StorageReport.idxmin,
    StorageReport.loc.
  simpl map. simpl py_bind.
  pose proof (idxmin_from_bound (map Storage.monthly_cost rest) 0 1
                (Storage.monthly_cost a)) as Hb.
  rewrite length_map in Hb.
  destruct (nth_error (a :: rest) _) as [row|] eqn:E; [eauto|].
  apply nth_error_None in E. simpl in E. lia.
Qed.

(** * The claims *)

(** C1 (boundary inclusivity), evaluated at the boundary of the blob
    dashboard.  The filters [hot_unused] and [cool_unused] compare with
    [> 90] and [> 180]: a Hot blob last read exactly 90 days ago gets no
    Cool recommendation and no savings, and a Cool blob at exactly 180
    days is not selected for Archive, although the script announces both
    rules as "90+ days" and "180+ days".  The storage and VM rules do
    include their lower bounds ([recommend_tier_boundaries],
    [recommend_action_boundaries]). *)
Theorem blob_filters_exclude_their_boundary :
  Blob.hot_unused [hot_blob_day_90] = []
  /\ Blob.recommendations [hot_blob_day_90] = []
  /\ Blob.total_monthly_savings [hot_blob_day_90] == 0
  /\ Blob.cool_unused [cool_blob_day_180] = []
  /\ Blob.total_monthly_savings [cool_blob_day_180] == 0.
Proof.
  repeat split; reflexivity.
Qed.



(** The same on no records at all. *)
Example roi_of_empty_tables :
  Storage.roi_percent (Storage.analyze []) = NaN /\ Blob.roi_percent [] = NaN.
Proof. split; reflexivity. Qed.



(** No transition out of Archive is priced, nor is Cool to Hot. *)
Lemma archive_source_unpriced (recommended : string) :
  discount_fraction transition_table "Archive" recommended = None.
Proof. reflexivity. Qed.



(** C5, as stated, fails on the cost dashboard: each saving is stored as
    the text [f'${x:.2f}'] and the total adds up the parsed texts.  For
    two services costing 100.03 each, both recommendations read
    ["$15.00"], the total is 30.00 and prints as ["$30.00"], while the
    unrounded savings add up to 30.009, which prints as ["$30.01"]. *)
Lemma dashboard_total_adds_rounded_amounts :
  exists recs total,
    CostDashboard.recommendations CostDashboard.services
      two_service_costs [] two_service_costs [] [200.06] = Ok recs
    /\ map CostDashboard.Potential_Savings recs = ["$15.00"; "$15.00"]%string
    /\ CostDashboard.total_savings recs = Ok total
    /\ total == 30
    /\ ~ total == 100.03 * 0.15 + 100.03 * 0.15
    /\ CostDashboard.format_money total = "$30.00"%string
    /\ CostDashboard.format_money (100.03 * 0.15 + 100.03 * 0.15)
       = "$30.01"%string.
Proof.
  eexists. eexists.
  split; [vm_compute; reflexivity|].
  split; [reflexivity|].
  split; [vm_compute; reflexivity|].
  split; [reflexivity|].
  split; [intros H; vm_compute in H; discriminate|].
  split; vm_compute; reflexivity.
Qed.

(** C5, amended.  In the storage analyzer [total_savings] is the sum of
    the unrounded per-row savings, each the monthly cost times the
    fraction of the row's transition (0 when the transition is not
    priced).  In the cost dashboard the amounts are rounded to two
    fractional digits before they are added: when the savings texts
    print the amounts [amounts], the total is the sum of the rounded
    amounts. *)
Theorem total_savings_exact_or_rounded
    (df : list Storage.Account)
    (recs : list CostDashboard.Recommendation) (amounts : list Q)
    (Hfmt : Forall2 (fun r x => CostDashboard.Potential_Savings r
                                = CostDashboard.format_money x)
              recs amounts) :
  Storage.total_savings (Storage.analyze df)
  == series_sum
       (map (fun a =>
               match discount_fraction transition_table
                       (Storage.current_tier a) (Storage.recommend_tier a) with
               | Some d => Storage.monthly_cost a * d
               | None => 0
               end) df)
  /\ exists total,
       CostDashboard.total_savings recs = Ok total
       /\ total == series_sum (map rounded_2f amounts).
Proof.
  split.
  - unfold Storage.total_savings, Storage.analyze,
      Storage.add_potential_savings, Storage.add_recommended_tier.
    rewrite !map_map. simpl.
    erewrite map_ext; [reflexivity|].
    intros a. now rewrite calculate_savings_table.
  - now apply total_savings_formatted.
Qed.

Lemma total_savings_exact_or_rounded_witness :
  let recs := [ CostDashboard.mkRecommendation "HIGH" "Virtual Machines" "$15.00";
                CostDashboard.mkRecommendation "HIGH" "Storage" "$15.00" ]%string in
  let amounts := [100.03 * 0.15; 100.03 * 0.15] in
  Forall2 (fun r x => CostDashboard.Potential_Savings r
                      = CostDashboard.format_money x) recs amounts
  /\ exists total,
       CostDashboard.total_savings recs = Ok total
       /\ total == series_sum (map rounded_2f amounts).
Proof.
  assert (H : Forall2 (fun r x => CostDashboard.Potential_Savings r
                                  = CostDashboard.format_money x)
                [ CostDashboard.mkRecommendation "HIGH" "Virtual Machines" "$15.00";
                  CostDashboard.mkRecommendation "HIGH" "Storage" "$15.00" ]%string
                [100.03 * 0.15; 100.03 * 0.15]).
  { repeat constructor. }
  split; [exact H|].
  exact (proj2 (total_savings_exact_or_rounded Storage.storage_data _ _ H)).
Defined.

(** The per-blob reading agrees with the two filters: a blob of the
    table is in [hot_unused] exactly when it is Hot and recommended Cool,
    in [cool_unused] exactly when it is Cool and recommended Archive, and
    keeps its tier exactly when neither filter selects it. *)
Lemma recommended_tier_of_filters (df : list Blob.Row) (b : Blob.Row) :
  In b df ->
  (In b (Blob.hot_unused df)
   <-> Blob.access_tier b = "Hot"%string /\ recommended_tier_of b = "Cool"%string)
  /\ (In b (Blob.cool_unused df)
      <-> Blob.access_tier b = "Cool"%string
          /\ recommended_tier_of b = "Archive"%string)
  /\ (~ In b (Blob.hot_unused df) -> ~ In b (Blob.cool_unused df) ->
      recommended_tier_of b = Blob.access_tier b).
Proof.
  intros Hin. rewrite hot_unused_In, cool_unused_In.
  unfold recommended_tier_of.
  destruct (String.eqb_spec (Blob.access_tier b) "Hot") as [Eh|Eh];
    destruct (String.eqb_spec (Blob.access_tier b) "Cool") as [Ec|Ec];
    destruct (Z.ltb_spec 90 (Blob.last_accessed_days b));
    destruct (Z.ltb_spec 180 (Blob.last_accessed_days b));
    simpl; try congruence;
    (split; [|split]); try (intros; reflexivity);
    try (split; intros; intuition (try congruence; try lia));
    try (intros Hh Hc; exfalso; first [apply Hh | apply Hc]; intuition lia).
Qed.

(** C6: the scenario of the specification on the blob dashboard.  The
    Hot record ["blob-1"] costing 100.0 with recency 95 is selected by
    [hot_unused] and recommended Cool; [savings] (Cell 5), the total of
    Cell 5, the [potential_savings] of its exported row and the total of
    the final report are all 44.  With recency 89 neither filter selects
    it: its recommended tier is Hot, no row is exported and every savings
    figure is 0. *)
Theorem blob_1_scenario (size_mb : Z) (container : string) (size_gb : Q) :
  let at_95 := blob_1 size_mb container size_gb 95 in
  let at_89 := blob_1 size_mb container size_gb 89 in
  (recommended_tier_of at_95 = "Cool"%string
   /\ Blob.hot_unused [at_95] = [at_95]
   /\ Blob.savings [at_95] == 44
   /\ Blob.total_monthly_savings [at_95] == 44
   /\ map Blob.recommended_tier (Blob.recommendations [at_95]) = ["Cool"%string]
   /\ Forall (fun r => Blob.potential_savings r == 44)
        (Blob.recommendations [at_95])
   /\ Blob.total_savings [at_95] == 44)
  /\ (recommended_tier_of at_89 = "Hot"%string
      /\ Blob.hot_unused [at_89] = []
      /\ Blob.cool_unused [at_89] = []
      /\ Blob.recommendations [at_89] = []
      /\ Blob.total_monthly_savings [at_89] == 0
      /\ Blob.total_savings [at_89] = 0).
Proof.
  simpl. split.
  - split; [reflexivity|]. split; [reflexivity|].
    split; [reflexivity|]. split; [reflexivity|].
    split; [reflexivity|]. split; [|reflexivity].
    repeat constructor.
  - split; [reflexivity|]. split; [reflexivity|].
    split; [reflexivity|]. split; [reflexivity|].
    split; reflexivity.
Qed.

(** C7, as stated, fails on empty input in each script: the storage
    script looks up the most expensive account of the empty table and
    raises [ValueError], Cell 3 of the blob dashboard raises [ValueError]
    on a table without rows, and the VM script divides by
    [len(values) = 0]. *)
Lemma empty_input_raises :
  StorageReport.analysis [] = Raise ValueError
  /\ BlobCosts.price_table [] = Raise ValueError
  /\ VM.calculate_average [] = Raise ZeroDivisionError.
Proof. repeat split. Qed.

(** Cell 3 prices every table of blobs that are already optimal, and
    neither filter of Cell 5 selects a row of the priced table. *)
Lemma price_rows_already_optimal (data : list BlobCosts.RawBlob) :
  Forall (fun b => already_optimal b = true) data ->
  exists blobs,
    BlobCosts.price_rows data = Ok blobs
    /\ List.length blobs = List.length data
    /\ Blob.hot_unused blobs = []
    /\ Blob.cool_unused blobs = [].
Proof.
  induction 1 as [|b rest Hb _ [blobs [Hrun [Hlen [Hhot Hcool]]]]].
  - exists []. repeat split.
  - cbn [BlobCosts.price_rows]. rewrite Hrun. clear Hrun.
    unfold already_optimal in Hb.
    unfold BlobCosts.price_blob, BlobCosts.tier_costs.
    cbn [BlobCosts.dict_getitem].
    destruct b as [name size days tier container]. cbn in Hb |- *.
    unfold Blob.hot_unused, Blob.cool_unused in *.
    destruct (String.eqb_spec tier "Hot") as [->|Eh].
    + cbn in Hb |- *. rewrite ?Bool.orb_false_r in Hb.
      apply Z.leb_le in Hb.
      eexists. split; [reflexivity|]. cbn.
      destruct (Z.ltb_spec 90 days); [lia|].
      cbn. rewrite Hhot, Hcool, Hlen. repeat split.
    + destruct (String.eqb_spec tier "Cool") as [->|Ec].
      * cbn in Hb |- *. rewrite ?Bool.orb_false_r in Hb.
        apply Z.leb_le in Hb.
        eexists. split; [reflexivity|]. cbn.
        destruct (Z.ltb_spec 180 days); [lia|].
        cbn. rewrite Hhot, Hcool, Hlen. repeat split.
      * cbn in Hb. apply String.eqb_eq in Hb. subst tier.
        cbn. eexists. split; [reflexivity|]. cbn.
        rewrite Hhot, Hcool, Hlen. repeat split.
Qed.

(** On a table with rows the storage script runs to its report. *)
Lemma analysis_runs (a : Storage.Account) (rest : list Storage.Account) :
  exists avg most least,
    StorageReport.analysis (a :: rest)
    = Ok (StorageReport.mkReport avg most least
            (Storage.analyze (a :: rest))
            (Storage.needs_optimization (Storage.analyze (a :: rest)))
            (Storage.total_savings (Storage.analyze (a :: rest)))
            (Storage.annual_savings (Storage.analyze (a :: rest)))
            (Storage.roi_percent (Storage.analyze (a :: rest)))).
Proof.
  unfold StorageReport.analysis.
  pose proof (max_cost_account_found a rest) as [most ->].
  pose proof (min_cost_account_found a rest) as [least ->].
  simpl. eauto.
Qed.

(** C7, amended.  A table with rows in which every record is already
    optimal is valid input.  The storage script then runs to its report
    without raising, with an empty [needs_optimization] and savings of
    0; the run raises exactly on the empty table.  The blob dashboard
    prices such a table in Cell 3 without raising, neither filter of
    Cell 5 selects a blob, no recommendation is exported and the
    savings of Cell 5 and of the final report are 0; again the run
    raises exactly on the empty table.  The VM batch loop leaves
    [total_wasted_cost = 0] on an empty [vm_list], and the CPU average
    is defined on every non-empty list of samples. *)
Theorem optimal_tables_are_valid_input
    (df : list Storage.Account) (data : list BlobCosts.RawBlob)
    (Hopt : Forall (fun a => Storage.current_tier a = Storage.recommend_tier a) df)
    (Hblob : Forall (fun b => already_optimal b = true) data) :
  match StorageReport.analysis df with
  | Ok report =>
      df <> []
      /\ StorageReport.table report = Storage.analyze df
      /\ StorageReport.to_optimize report = []
      /\ StorageReport.monthly_savings report == 0
      /\ StorageReport.yearly_savings report == 0
  | Raise e => e = ValueError /\ df = []
  end
  /\ match BlobCosts.price_table data with
     | Ok blobs =>
         data <> []
         /\ List.length blobs = List.length data
         /\ Blob.hot_unused blobs = []
         /\ Blob.cool_unused blobs = []
         /\ Blob.recommendations blobs = []
         /\ Blob.total_monthly_savings blobs == 0
         /\ Blob.total_savings blobs = 0
     | Raise e => e = ValueError /\ data = []
     end
  /\ VM.batch_loop 1 [] VM.loop_init = Some (VM.mkLoopState 0 0)
  /\ (forall v values, exists average,
        VM.calculate_average (v :: values) = Ok average).
Proof.
  split; [|split; [|split]].
  - destruct df as [|a rest]; [split; reflexivity|].
    destruct (analysis_runs a rest) as [avg [most [least ->]]]. simpl.
    assert (Hn : Storage.needs_optimization (Storage.analyze (a :: rest)) = []).
    { induction Hopt as [|x l Hx _ IH]; [reflexivity|].
      unfold Storage.analyze, Storage.add_potential_savings,
        Storage.add_recommended_tier, Storage.needs_optimization in *.
      simpl. rewrite Hx, String.eqb_refl. simpl. exact IH. }
    assert (Hs : Storage.total_savings (Storage.analyze (a :: rest)) == 0).
    { unfold Storage.analyze. rewrite total_savings_needs_optimization.
      fold (Storage.analyze (a :: rest)). rewrite Hn. reflexivity. }
    split; [discriminate|]. split; [reflexivity|]. split; [exact Hn|].
    split; [exact Hs|]. unfold Storage.annual_savings. rewrite Hs. reflexivity.
  - destruct data as [|b rest]; [split; reflexivity|].
    unfold BlobCosts.price_table.
    destruct (price_rows_already_optimal (b :: rest) Hblob)
      as [blobs [-> [Hlen [Hhot Hcool]]]].
    split; [discriminate|]. split; [exact Hlen|].
    split; [exact Hhot|]. split; [exact Hcool|].
    unfold Blob.recommendations, Blob.total_monthly_savings, Blob.total_savings.
    rewrite Hhot, Hcool. simpl. repeat split.
  - reflexivity.
  - intros v values.
    destruct (calculate_average_nonempty v values) as [average [H _]].
    now exists average.
Qed.

Lemma optimal_tables_are_valid_input_witness :
  let df := firstn 2 Storage.storage_data in
  let data := [ BlobCosts.mkRawBlob "blob-1" 5000 89 "Hot" "backups";
                BlobCosts.mkRawBlob "log-0.txt" 2048 180 "Cool" "logs" ] in
  Forall (fun a => Storage.current_tier a = Storage.recommend_tier a) df
  /\ Forall (fun b => already_optimal b = true) data
  /\ match StorageReport.analysis df with
     | Ok report =>
         StorageReport.to_optimize report = []
         /\ StorageReport.monthly_savings report == 0
     | Raise _ => False
     end
  /\ match BlobCosts.price_table data with
     | Ok blobs =>
         Blob.recommendations blobs = []
         /\ Blob.total_monthly_savings blobs == 0
     | Raise _ => False
     end.
Proof.
  assert (H : Forall (fun a => Storage.current_tier a = Storage.recommend_tier a)
                (firstn 2 Storage.storage_data)).
  { repeat constructor. }
  assert (Hb : Forall (fun b => already_optimal b = true)
                 [ BlobCosts.mkRawBlob "blob-1" 5000 89 "Hot" "backups";
                   BlobCosts.mkRawBlob "log-0.txt" 2048 180 "Cool" "logs" ]).
  { repeat constructor. }
  pose proof (optimal_tables_are_valid_input _ _ H Hb) as [Hrun [Hprice _]].
  split; [exact H|]. split; [exact Hb|]. split.
  - destruct (StorageReport.analysis (firstn 2 Storage.storage_data)) as [report|e].
    + destruct Hrun as [_ [_ [Hn [Hs _]]]]. split; [exact Hn | exact Hs].
    + destruct Hrun as [_ Hrun]. discriminate Hrun.
  - destruct (BlobCosts.price_table _) as [blobs|e].
    + destruct Hprice as [_ [_ [_ [_ [Hr [Hm _]]]]]]. split; [exact Hr | exact Hm].
    + destruct Hprice as [_ Hprice]. discriminate Hprice.
Defined.

(** The priced fractions all lie in [[0,1]]. *)
Lemma transition_table_fractions :
  Forall (fun entry => 0 <= snd entry <= 1) transition_table.
Proof.
  repeat constructor; simpl; discriminate.
Qed.

(** C8: savings are never negative.  For a storage row and a blob table
    without negative costs, [calculate_savings], every
    [potential_savings] of the exported blob recommendations and the
    blob total are non-negative; so is [calculate_potential_savings] for
    a non-negative cost and a reduction fraction in [[0,1]]. *)
Theorem potential_savings_nonneg
    (row : Storage.Recommended) (blobs : list Blob.Row)
    (rec : Blob.Recommendation) (current_cost reduction_percentage : Q)
    (Hrow : 0 <= Storage.monthly_cost row)
    (Hblobs : Forall (fun b => 0 <= Blob.monthly_cost b) blobs)
    (Hrec : In rec (Blob.recommendations blobs))
    (Hcost : 0 <= current_cost)
    (Hfrac : 0 <= reduction_percentage <= 1) :
  0 <= Storage.calculate_savings row
  /\ 0 <= Blob.potential_savings rec
  /\ 0 <= Blob.total_monthly_savings blobs
  /\ 0 <= VM.calculate_potential_savings current_cost reduction_percentage.
Proof.
  split; [now apply calculate_savings_nonneg|].
  split; [|split].
  - destruct (recommendations_In blobs rec Hrec) as [Hb [_ ->]].
    apply hot_unused_In in Hb as [Hb _].
    rewrite Forall_forall in Hblobs. specialize (Hblobs _ Hb). lra.
  - now apply total_monthly_savings_nonneg.
  - unfold VM.calculate_potential_savings. nra.
Qed.

Lemma potential_savings_nonneg_witness :
  let row := Storage.mkRecommended
               (Storage.mkAccount "backups03" 3200 280.00 "Hot" 45 100) "Cool" in
  let blobs := [blob_1 5000 "backups" 4.8828125 95] in
  let rec := Blob.mkRecommendation (blob_1 5000 "backups" 4.8828125 95)
               "Cool" (100.0 * 0.56) (100.0 * 0.44) in
  0 <= Storage.calculate_savings row
  /\ 0 <= Blob.potential_savings rec
  /\ 0 <= Blob.total_monthly_savings blobs
  /\ 0 <= VM.calculate_potential_savings 245.00 0.50.
Proof.
  assert (Hrow : 0 <= 280.00) by discriminate.
  assert (Hblobs : Forall (fun b => 0 <= Blob.monthly_cost b)
                     [blob_1 5000 "backups" 4.8828125 95]).
  { repeat constructor. discriminate. }
  assert (Hrec : In (Blob.mkRecommendation (blob_1 5000 "backups" 4.8828125 95)
                       "Cool" (100.0 * 0.56) (100.0 * 0.44))
                   (Blob.recommendations [blob_1 5000 "backups" 4.8828125 95]))
    by (left; reflexivity).
  assert (Hcost : 0 <= 245.00) by discriminate.
  assert (Hfrac : 0 <= 0.50 <= 1) by (split; discriminate).
  exact (potential_savings_nonneg
           (Storage.mkRecommended
              (Storage.mkAccount "backups03" 3200 280.00 "Hot" 45 100) "Cool")
           _ _ _ _ Hrow Hblobs Hrec Hcost Hfrac).
Defined.

(** C9: the tier recommended by [recommend_tier] is monotone in the days
    since the last access: fewer days never give a colder tier under
    Hot < Cool < Archive. *)
Theorem recommend_tier_monotone (r1 r2 : Storage.Account)
    (Hle : (Storage.last_access_days r1 <= Storage.last_access_days r2)%Z) :
  no_colder (Storage.recommend_tier r1) (Storage.recommend_tier r2).
Proof.
  destruct (recommend_tier_intervals r1) as [[H1 ->]|[[H1 ->]|[H1 ->]]];
    destruct (recommend_tier_intervals r2) as [[H2 ->]|[[H2 ->]|[H2 ->]]];
    unfold no_colder; simpl; lia.
Qed.

Lemma recommend_tier_monotone_witness :
  let r1 := Storage.mkAccount "reports09" 340 42.50 "Hot" 30 1500 in
  let r2 := Storage.mkAccount "analytics07" 2100 189.00 "Cool" 90 200 in
  (Storage.last_access_days r1 <= Storage.last_access_days r2)%Z
  /\ no_colder (Storage.recommend_tier r1) (Storage.recommend_tier r2).
Proof.
  assert (H : (30 <= 90)%Z) by lia.
  split; [exact H|].
  exact (recommend_tier_monotone
           (Storage.mkAccount "reports09" 340 42.50 "Hot" 30 1500)
           (Storage.mkAccount "analytics07" 2100 189.00 "Cool" 90 200) H).
Defined.

(** C10: [recommend_action] never stops a production VM.  For every CPU
    average the answer for a production VM is one of DOWNSIZE, REVIEW,
    OPTIMAL and ALERT, is not STOP, and is DOWNSIZE below 10; the
    function is total, and for a non-production VM it likewise answers
    with one of four strings, STOP taking the place of DOWNSIZE. *)
Theorem production_vm_is_never_stopped (cpu_avg : Q) :
  In (VM.recommend_action cpu_avg true)
     [VM.DOWNSIZE; VM.REVIEW; VM.OPTIMAL; VM.ALERT]
  /\ VM.recommend_action cpu_avg true <> VM.STOP
  /\ (cpu_avg < 10 -> VM.recommend_action cpu_avg true = VM.DOWNSIZE)
  /\ In (VM.recommend_action cpu_avg false)
        [VM.STOP; VM.REVIEW; VM.OPTIMAL; VM.ALERT].
Proof.
  destruct (recommend_action_intervals cpu_avg true)
    as [[H E]|[[H E]|[[H E]|[H E]]]];
    destruct (recommend_action_intervals cpu_avg false)
      as [[H' E']|[[H' E']|[[H' E']|[H' E']]]];
    try (exfalso; lra);
    rewrite E, E'; simpl;
    (split; [tauto|]); (split; [discriminate|]);
    (split; [|tauto]); intros Hlt; try reflexivity; exfalso; lra.
Qed.

Lemma production_vm_is_never_stopped_witness :
  5 < 10 /\ VM.recommend_action 5 true = VM.DOWNSIZE.
Proof.
  assert (H : 5 < 10) by reflexivity.
  split; [exact H|].
  exact (proj1 (proj2 (proj2 (production_vm_is_never_stopped 5))) H).
Defined.

(** * Further properties of the scripts *)

(** ** VM optimizer *)

Lemma waste_of_lower_bound (vm : VM.Entry) :
  (if is_wasting vm then 25 else 0) <= waste_of vm.
Proof.
  unfold waste_of, is_wasting, VM.calculate_potential_savings.
  destruct (Qltb (VM.cpu vm) 15); simpl; [|lra].
  destruct (Qltb 50 (VM.cost vm)) eqn:E; [|lra].
  apply Qltb_lt in E. lra.
Qed.

Lemma wasted_lower_bound (vm_list : list VM.Entry) :
  25 * inject_Z (Z.of_nat (List.length (filter is_wasting vm_list)))
  <= series_sum (map waste_of vm_list).
Proof.
  induction vm_list as [|vm rest IH].
  - discriminate.
  - simpl map. rewrite series_sum_cons.
    pose proof (waste_of_lower_bound vm) as H.
    simpl filter. destruct (is_wasting vm).
    + simpl List.length. rewrite Nat2Z.inj_succ, <- Z.add_1_r, inject_Z_plus.
      change (inject_Z 1) with 1. lra.
    + lra.
Qed.

(** X1: the batch [while] loop terminates on every [vm_list], after
    [len(vm_list)] iterations; [total_wasted_cost] ends as the sum of
    half the cost of each entry with [cpu < 15] and [cost > 50], so it
    is at least 25 per such entry and never negative. *)
Theorem batch_loop_total (vm_list : list VM.Entry) :
  exists total,
    VM.batch_loop (S (List.length vm_list)) vm_list VM.loop_init
    = Some (VM.mkLoopState (List.length vm_list) total)
    /\ total == series_sum (map waste_of vm_list)
    /\ 25 * inject_Z (Z.of_nat (List.length (filter is_wasting vm_list)))
       <= total.
Proof.
  destruct (batch_loop_terminates vm_list) as [total [Hrun Htot]].
  exists total. split; [exact Hrun|]. split; [exact Htot|].
  rewrite Htot. apply wasted_lower_bound.
Qed.

Lemma pair_neq (a b c d : string) : a <> c -> (a, b) <> (c, d).
Proof. intros H E. inversion E. contradiction. Qed.

Ltac iff_by_cases :=
  split; intro;
  first [ discriminate | reflexivity | lra | exfalso; lra
        | split; [lra | reflexivity]
        | match goal with
          | H : _ /\ _ |- _ => destruct H; first [discriminate | exfalso; lra]
          end ].

Ltac category_iffs :=
  split; [iff_by_cases | split; [iff_by_cases | split; iff_by_cases]].

(** X3: for ordered thresholds the cost category is an interval
    lookup with inclusive lower bounds: Low below [low], Medium on
    [[low, medium)], High on [[medium, high)], Very High from [high]
    on. *)
Theorem cost_category_intervals (low medium high monthly_cost : Q)
    (Hlm : low <= medium) (Hmh : medium <= high) :
  let category := fst (VMReport.cost_category (low, medium, high) monthly_cost) in
  (category = "Low Cost"%string <-> monthly_cost < low)
  /\ (category = "Medium Cost"%string <-> low <= monthly_cost < medium)
  /\ (category = "High Cost"%string <-> medium <= monthly_cost < high)
  /\ (category = "Very High Cost"%string <-> high <= monthly_cost).
Proof.
  unfold VMReport.cost_category.
  destruct (Qltb monthly_cost low) eqn:E1;
    [apply Qltb_lt in E1 | apply Qltb_ge in E1].
  - simpl. category_iffs.
  - assert (G1 : Qgeb monthly_cost low = true) by now apply Qgeb_ge.
    rewrite G1.
    destruct (Qltb monthly_cost medium) eqn:E2;
      [apply Qltb_lt in E2 | apply Qltb_ge in E2].
    + simpl. category_iffs.
    + assert (G2 : Qgeb monthly_cost medium = true) by now apply Qgeb_ge.
      rewrite G2.
      destruct (Qltb monthly_cost high) eqn:E3;
        [apply Qltb_lt in E3 | apply Qltb_ge in E3].
      * simpl. category_iffs.
      * simpl. category_iffs.
Qed.

Lemma cost_category_intervals_witness :
  100.0 <= 250.0 /\ 250.0 <= 500.0
  /\ fst (VMReport.cost_category VMReport.cost_thresholds 250.0) = "High Cost"%string.
Proof.
  assert (H1 : 100.0 <= 250.0) by discriminate.
  assert (H2 : 250.0 <= 500.0) by discriminate.
  split; [exact H1|]. split; [exact H2|].
  apply (proj1 (proj2 (proj2 (cost_category_intervals 100.0 250.0 500.0 250.0 H1 H2)))).
  split; [discriminate | reflexivity].
Defined.

(** X4: the cost impact analysis is printed (branch
    [calculated_avg < 20]) exactly when [recommend_action] answers STOP,
    DOWNSIZE or REVIEW; it then reports the whole cost as stop savings,
    half of it as downsize savings and six times the monthly cost as
    annual savings. *)
Theorem cost_impact_iff_underutilized (calculated_avg monthly_cost : Q)
    (is_prod : bool) :
  (VMReport.cost_impact calculated_avg monthly_cost <> None
   <-> In (VM.recommend_action calculated_avg is_prod)
          [VM.STOP; VM.DOWNSIZE; VM.REVIEW])
  /\ match VMReport.cost_impact calculated_avg monthly_cost with
     | Some impact =>
         VMReport.stop_savings impact == monthly_cost
         /\ VMReport.downsize_savings impact * 2 == monthly_cost
         /\ VMReport.annual_savings impact == 6 * monthly_cost
     | None => True
     end.
Proof.
  unfold VMReport.cost_impact, VM.calculate_potential_savings.
  destruct (recommend_action_intervals calculated_avg is_prod)
    as [[H E]|[[H E]|[[H E]|[H E]]]]; rewrite E;
    destruct (Qltb calculated_avg 20) eqn:E20;
    try (apply Qltb_lt in E20); try (apply Qltb_ge in E20);
    try (exfalso; lra).
  - split; [|simpl; split; [ring | split; ring]].
    split; [intros _|intros _; discriminate].
    destruct is_prod; simpl; auto.
  - split; [|simpl; split; [ring | split; ring]].
    split; [intros _; simpl; auto|intros _; discriminate].
  - split; [|exact I].
    split; [intros Hn; now contradiction Hn|].
    simpl. intros [Hx|[Hx|[Hx|[]]]]; discriminate.
  - split; [|exact I].
    split; [intros Hn; now contradiction Hn|].
    simpl. intros [Hx|[Hx|[Hx|[]]]]; discriminate.
Qed.

(** X5: each answer of [recommend_action] has exactly one region of
    inputs: STOP and DOWNSIZE share [cpu_avg < 10] and are told apart by
    [is_prod], REVIEW is [[10,20)], OPTIMAL is [[20,60)], ALERT is
    [[60,inf)]. *)
Theorem recommend_action_characterised (cpu_avg : Q) (is_prod : bool) :
  (VM.recommend_action cpu_avg is_prod = VM.STOP
   <-> cpu_avg < 10 /\ is_prod = false)
  /\ (VM.recommend_action cpu_avg is_prod = VM.DOWNSIZE
      <-> cpu_avg < 10 /\ is_prod = true)
  /\ (VM.recommend_action cpu_avg is_prod = VM.REVIEW <-> 10 <= cpu_avg < 20)
  /\ (VM.recommend_action cpu_avg is_prod = VM.OPTIMAL <-> 20 <= cpu_avg < 60)
  /\ (VM.recommend_action cpu_avg is_prod = VM.ALERT <-> 60 <= cpu_avg).
Proof.
  destruct (recommend_action_intervals cpu_avg is_prod)
    as [[H E]|[[H E]|[[H E]|[H E]]]]; rewrite E;
    try destruct is_prod;
    (split; [iff_by_cases | category_iffs]).
Qed.

(** ** Storage analyzer: report *)

Section StorageReportFacts.
Import Storage StorageReport.

(** X6: [recommend_tier] answers Hot exactly below 30 days, Cool
    exactly on [[30,90)] and Archive exactly from 90 days on. *)
Theorem recommend_tier_characterised (row : Account) :
  (recommend_tier row = "Hot"%string <-> (last_access_days row < 30)%Z)
  /\ (recommend_tier row = "Cool"%string <-> (30 <= last_access_days row < 90)%Z)
  /\ (recommend_tier row = "Archive"%string <-> (90 <= last_access_days row)%Z).
Proof.
  destruct (recommend_tier_intervals row) as [[H ->]|[[H ->]|[H ->]]];
    repeat split; intros; try discriminate; try lia.
Qed.

(** X7: every high-priority candidate (Hot, not accessed for more
    than 30 days, larger than 500 GB) is also a Hot-tier account and a
    rarely accessed one, shows up in [needs_optimization], and is
    recommended Cool with savings of 50% or Archive with savings of 80%
    of its cost. *)
Theorem candidates_need_optimization (df : list Account) (a : Account)
    (Hin : In a (optimization_candidates df)) :
  let row := mkRecommended a (recommend_tier a) in
  In a (hot_tier_accounts df)
  /\ In a (rarely_accessed df)
  /\ In (mkScored row (calculate_savings row)) (needs_optimization (analyze df))
  /\ ((recommend_tier a = "Cool"%string
       /\ calculate_savings row = monthly_cost a * 0.50)
      \/ (recommend_tier a = "Archive"%string
          /\ calculate_savings row = monthly_cost a * 0.80)).
Proof.
  unfold optimization_candidates in Hin.
  apply filter_In in Hin as [Hdf Hc].
  apply andb_true_iff in Hc as [Hc Hsize].
  apply andb_true_iff in Hc as [Htier Hdays].
  apply String.eqb_eq in Htier. apply Z.ltb_lt in Hdays.
  assert (Hrec : (recommend_tier a = "Cool"%string
                  /\ calculate_savings (mkRecommended a (recommend_tier a))
                     = monthly_cost a * 0.50)
                 \/ (recommend_tier a = "Archive"%string
                     /\ calculate_savings (mkRecommended a (recommend_tier a))
                        = monthly_cost a * 0.80)).
  { unfold calculate_savings. simpl. rewrite Htier.
    destruct (recommend_tier_intervals a) as [[H E]|[[H E]|[H E]]];
      rewrite E; [lia | left | right]; split; reflexivity. }
  simpl. split; [|split; [|split; [|exact Hrec]]].
  - apply filter_In. split; [exact Hdf|]. now apply String.eqb_eq.
  - apply filter_In. split; [exact Hdf|]. now apply Z.ltb_lt.
  - apply needs_optimization_In. split.
    + unfold analyze, add_potential_savings, add_recommended_tier.
      rewrite map_map. apply in_map_iff. exists a. split; [reflexivity|exact Hdf].
    + simpl. rewrite Htier.
      destruct Hrec as [[E _]|[E _]]; rewrite E; discriminate.
Qed.

Lemma candidates_need_optimization_witness :
  let a := mkAccount "backups03" 3200 280.00 "Hot" 45 100 in
  In a (optimization_candidates storage_data)
  /\ In a (rarely_accessed storage_data)
  /\ recommend_tier a = "Cool"%string.
Proof.
  assert (H : In (mkAccount "backups03" 3200 280.00 "Hot" 45 100)
                (optimization_candidates storage_data))
    by (left; reflexivity).
  destruct (candidates_need_optimization _ _ H) as [_ [Hr [_ _]]].
  split; [exact H|]. split; [exact Hr | reflexivity].
Defined.

(** *** The extremes *)

Lemma idxmax_from_spec (xs pre : list Q) (best_i : nat) (best : Q) :
  nth_error pre best_i = Some best ->
  (forall x, In x pre -> x <= best) ->
  (forall j x, (j < best_i)%nat -> nth_error pre j = Some x -> x < best) ->
  exists m,
    nth_error (pre ++ xs) (idxmax_from best_i best (List.length pre) xs) = Some m
    /\ (forall x, In x (pre ++ xs) -> x <= m)
    /\ (forall j x,
          (j < idxmax_from best_i best (List.length pre) xs)%nat ->
          nth_error (pre ++ xs) j = Some x -> x < m).
Proof.
  revert pre best_i best.
  induction xs as [|x rest IH]; intros pre best_i best Hbest Hall Hfirst.
  - simpl. rewrite app_nil_r. exists best. auto.
  - assert (Hi : (best_i < List.length pre)%nat)
      by (apply nth_error_Some; congruence).
    simpl idxmax_from.
    replace (pre ++ x :: rest) with ((pre ++ [x]) ++ rest)
      by (rewrite <- app_assoc; reflexivity).
    replace (S (List.length pre)) with (List.length (pre ++ [x]))
      by (rewrite length_app; simpl; lia).
    destruct (Qltb best x) eqn:E;
      [apply Qltb_lt in E | apply Qltb_ge in E]; apply IH.
    + rewrite nth_error_app2 by lia. rewrite Nat.sub_diag. reflexivity.
    + intros y Hy. apply in_app_iff in Hy as [Hy|[<-|[]]].
      * specialize (Hall y Hy). lra.
      * lra.
    + intros j y Hj Hy. rewrite nth_error_app1 in Hy by lia.
      apply nth_error_In in Hy. specialize (Hall y Hy). lra.
    + rewrite nth_error_app1 by lia. exact Hbest.
    + intros y Hy. apply in_app_iff in Hy as [Hy|[<-|[]]].
      * now apply Hall.
      * exact E.
    + intros j y Hj Hy. rewrite nth_error_app1 in Hy by lia.
      now apply (Hfirst j).
Qed.

Lemma idxmin_from_spec (xs pre : list Q) (best_i : nat) (best : Q) :
  nth_error pre best_i = Some best ->
  (forall x, In x pre -> best <= x) ->
  (forall j x, (j < best_i)%nat -> nth_error pre j = Some x -> best < x) ->
  exists m,
    nth_error (pre ++ xs) (idxmin_from best_i best (List.length pre) xs) = Some m
    /\ (forall x, In x (pre ++ xs) -> m <= x)
    /\ (forall j x,
          (j < idxmin_from best_i best (List.length pre) xs)%nat ->
          nth_error (pre ++ xs) j = Some x -> m < x).
Proof.
  revert pre best_i best.
  induction xs as [|x rest IH]; intros pre best_i best Hbest Hall Hfirst.
  - simpl. rewrite app_nil_r. exists best. auto.
  - assert (Hi : (best_i < List.length pre)%nat)
      by (apply nth_error_Some; congruence).
    simpl idxmin_from.
    replace (pre ++ x :: rest) with ((pre ++ [x]) ++ rest)
      by (rewrite <- app_assoc; reflexivity).
    replace (S (List.length pre)) with (List.length (pre ++ [x]))
      by (rewrite length_app; simpl; lia).
    destruct (Qltb x best) eqn:E;
      [apply Qltb_lt in E | apply Qltb_ge in E]; apply IH.
    + rewrite nth_error_app2 by lia. rewrite Nat.sub_diag. reflexivity.
    + intros y Hy. apply in_app_iff in Hy as [Hy|[<-|[]]].
      * specialize (Hall y Hy). lra.
      * lra.
    + intros j y Hj Hy. rewrite nth_error_app1 in Hy by lia.
      apply nth_error_In in Hy. specialize (Hall y Hy). lra.
    + rewrite nth_error_app1 by lia. exact Hbest.
    + intros y Hy. apply in_app_iff in Hy as [Hy|[<-|[]]].
      * now apply Hall.
      * exact E.
    + intros j y Hj Hy. rewrite nth_error_app1 in Hy by lia.
      now apply (Hfirst j).
Qed.

Lemma nth_error_map_inv {A B : Type} (f : A -> B) (l : list A) (k : nat) (b : B) :
  nth_error (map f l) k = Some b ->
  exists a, nth_error l k = Some a /\ f a = b.
Proof.
  revert k. induction l as [|a l IH]; intros [|k] H; simpl in *;
    try discriminate.
  - inversion H. eauto.
  - now apply IH.
Qed.

(** X8: the most expensive account is a row of the table whose cost
    is at least every other cost, and the first such row; on an empty
    table the lookup raises [ValueError]. *)
Theorem max_cost_account_spec (df : list Account) :
  match max_cost_account df with
  | Ok row =>
      exists k,
        nth_error df k = Some row
        /\ (forall other, In other df -> monthly_cost other <= monthly_cost row)
        /\ (forall j other, (j < k)%nat -> nth_error df j = Some other ->
              monthly_cost other < monthly_cost row)
  | Raise e => e = ValueError /\ df = []
  end.
Proof.
  destruct df as [|a rest]; [simpl; auto|].
  unfold max_cost_account, idxmax. simpl map. simpl py_bind.
  destruct (idxmax_from_spec (map monthly_cost rest) [monthly_cost a] 0
              (monthly_cost a)) as [m [Hk [Hmax Hfirst]]].
  - reflexivity.
  - intros x [<-|[]]. apply Qle_refl.
  - intros j x Hj. lia.
  - simpl List.length in *. simpl app in *.
    change (monthly_cost a :: map monthly_cost rest)
      with (map monthly_cost (a :: rest)) in *.
    apply nth_error_map_inv in Hk as [row [Hrow Hm]].
    unfold loc. rewrite Hrow. exists (idxmax_from 0 (monthly_cost a) 1
                                        (map monthly_cost rest)).
    split; [exact Hrow|]. rewrite Hm. split.
    + intros other Ho. apply Hmax. now apply in_map.
    + intros j other Hj Ho. apply (Hfirst j); [exact Hj|].
      now apply map_nth_error.
Qed.

(** X9: the least expensive account is a row of the table whose cost
    is at most every other cost, and the first such row; on an empty
    table the lookup raises [ValueError]. *)
Theorem min_cost_account_spec (df : list Account) :
  match min_cost_account df with
  | Ok row =>
      exists k,
        nth_error df k = Some row
        /\ (forall other, In other df -> monthly_cost row <= monthly_cost other)
        /\ (forall j other, (j < k)%nat -> nth_error df j = Some other ->
              monthly_cost row < monthly_cost other)
  | Raise e => e = ValueError /\ df = []
  end.
Proof.
  destruct df as [|a rest]; [simpl; auto|].
  unfold min_cost_account, idxmin. simpl map. simpl py_bind.
  destruct (idxmin_from_spec (map monthly_cost rest) [monthly_cost a] 0
              (monthly_cost a)) as [m [Hk [Hmin Hfirst]]].
  - reflexivity.
  - intros x [<-|[]]. apply Qle_refl.
  - intros j x Hj. lia.
  - simpl List.length in *. simpl app in *.
    change (monthly_cost a :: map monthly_cost rest)
      with (map monthly_cost (a :: rest)) in *.
    apply nth_error_map_inv in Hk as [row [Hrow Hm]].
    unfold loc. rewrite Hrow. exists (idxmin_from 0 (monthly_cost a) 1
                                        (map monthly_cost rest)).
    split; [exact Hrow|]. rewrite Hm. split.
    + intros other Ho. apply Hmin. now apply in_map.
    + intros j other Hj Ho. apply (Hfirst j); [exact Hj|].
      now apply map_nth_error.
Qed.

End StorageReportFacts.

Section TierAnalysisFacts.
Import Storage StorageReport.

Lemma key_lt_trans (a b c : string) : key_lt a b -> key_lt b c -> key_lt a c.
Proof.
  unfold key_lt. intros H1 H2.
  apply String_as_OT.cmp_lt. apply String_as_OT.cmp_lt in H1, H2.
  eapply String_as_OT.lt_trans; eassumption.
Qed.

Lemma key_lt_neq (a b : string) : key_lt a b -> a <> b.
Proof.
  unfold key_lt. intros H E.
  apply String_as_OT.cmp_lt in H.
  now apply String_as_OT.lt_not_eq in H.
Qed.

Lemma compare_gt_lt (a b : string) : String.compare a b = Gt -> key_lt b a.
Proof.
  unfold key_lt. intros H. rewrite String.compare_antisym, H. reflexivity.
Qed.

Lemma add_to_group_keys (key : string) (row : Account)
    (groups : list (string * TierTotals)) (k : string) :
  In k (map fst (add_to_group key row groups)) ->
  k = key \/ In k (map fst groups).
Proof.
  induction groups as [|[k0 t0] rest IH]; simpl.
  - intros [<-|[]]. now left.
  - destruct (String.compare key k0) eqn:E; simpl.
    + tauto.
    + intros [<-|H]; tauto.
    + intros [<-|H]; [tauto|]. apply IH in H. tauto.
Qed.

Lemma add_to_group_sorted (key : string) (row : Account)
    (groups : list (string * TierTotals)) :
  StronglySorted key_lt (map fst groups) ->
  StronglySorted key_lt (map fst (add_to_group key row groups)).
Proof.
  induction groups as [|[k0 t0] rest IH]; simpl; intros Hs.
  - repeat constructor.
  - inversion Hs as [|? ? Hrest Hall]; subst.
    destruct (String.compare key k0) eqn:E; simpl.
    + exact Hs.
    + constructor; [exact Hs|]. constructor; [exact E|].
      eapply Forall_impl; [|exact Hall].
      intros k Hk. eapply key_lt_trans; eassumption.
    + constructor; [now apply IH|].
      apply Forall_forall. intros k Hk.
      apply add_to_group_keys in Hk as [->|Hk].
      * now apply compare_gt_lt.
      * rewrite Forall_forall in Hall. now apply Hall.
Qed.

Lemma tier_analysis_sorted_from (df : list Account)
    (groups : list (string * TierTotals)) :
  StronglySorted key_lt (map fst groups) ->
  StronglySorted key_lt
    (map fst (fold_left (fun g row => add_to_group (current_tier row) row g)
                df groups)).
Proof.
  revert groups. induction df as [|row df IH]; intros groups Hs; simpl.
  - exact Hs.
  - apply IH. now apply add_to_group_sorted.
Qed.

Lemma add_to_group_totals (key : string) (row : Account)
    (groups : list (string * TierTotals)) :
  series_sum (map (fun g => Total_Cost (snd g)) (add_to_group key row groups))
  == series_sum (map (fun g => Total_Cost (snd g)) groups) + monthly_cost row
  /\ fold_right Z.add 0%Z (map (fun g => Total_GB (snd g)) (add_to_group key row groups))
     = (fold_right Z.add 0 (map (fun g => Total_GB (snd g)) groups)
        + size_gb row)%Z
  /\ fold_right Nat.add 0%nat
       (map (fun g => Account_Count (snd g)) (add_to_group key row groups))
     = S (fold_right Nat.add 0%nat (map (fun g => Account_Count (snd g)) groups)).
Proof.
  induction groups as [|[k0 t0] rest [IHc [IHg IHn]]];
    cbn [add_to_group].
  - cbn [map snd fold_right Total_Cost Total_GB Account_Count add_account
         no_accounts].
    split; [|split]; [|lia|reflexivity].
    rewrite series_sum_cons, !series_sum_nil. ring.
  - destruct (String.compare key k0);
      cbn [map snd fold_right Total_Cost Total_GB Account_Count add_account
           no_accounts];
      rewrite ?series_sum_cons.
    + split; [|split]; [ring|lia|lia].
    + split; [|split]; [ring|lia|lia].
    + rewrite IHc, IHg, IHn. split; [|split]; [ring|lia|lia].
Qed.

Lemma tier_analysis_totals_from (df : list Account)
    (groups : list (string * TierTotals)) :
  let result :=
    fold_left (fun g row => add_to_group (current_tier row) row g) df groups in
  series_sum (map (fun g => Total_Cost (snd g)) result)
  == series_sum (map (fun g => Total_Cost (snd g)) groups)
     + series_sum (map monthly_cost df)
  /\ fold_right Z.add 0%Z (map (fun g => Total_GB (snd g)) result)
     = (fold_right Z.add 0 (map (fun g => Total_GB (snd g)) groups)
        + fold_right Z.add 0 (map size_gb df))%Z
  /\ fold_right Nat.add 0%nat (map (fun g => Account_Count (snd g)) result)
     = (fold_right Nat.add 0 (map (fun g => Account_Count (snd g)) groups)
        + List.length df)%nat.
Proof.
  revert groups. induction df as [|row df IH]; intros groups;
    cbn [fold_left map fold_right List.length].
  - rewrite series_sum_nil. split; [ring|split; lia].
  - destruct (IH (add_to_group (current_tier row) row groups)) as [Hc [Hg Hn]].
    destruct (add_to_group_totals (current_tier row) row groups)
      as [Ac [Ag An]].
    cbv zeta in Hc, Hg, Hn. rewrite Hc, Hg, Hn, Ac, Ag, An, series_sum_cons.
    split; [ring|split; lia].
Qed.

(** X10: [tier_analysis] partitions the table: its labels are strictly
    increasing (each tier appears once), and its size and count columns
    add up to the total size and the number of accounts. *)
Theorem tier_analysis_partitions_the_table (df : list Account) :
  StronglySorted key_lt (map fst (tier_analysis df))
  /\ fold_right Z.add 0%Z (map (fun g => Total_GB (snd g)) (tier_analysis df))
     = fold_right Z.add 0%Z (map size_gb df)
  /\ fold_right Nat.add 0%nat
       (map (fun g => Account_Count (snd g)) (tier_analysis df))
     = List.length df.
Proof.
  unfold tier_analysis. split.
  - apply tier_analysis_sorted_from. constructor.
  - destruct (tier_analysis_totals_from df []) as [_ [Hg Hn]].
    cbv zeta in Hg, Hn. cbn [map fold_right] in Hg, Hn.
    rewrite Hg, Hn. split; lia.
Qed.

(** *** One group and the filter on its tier *)

Lemma group_of_above (tier : string) (groups : list (string * TierTotals)) :
  Forall (key_lt tier) (map fst groups) -> group_of tier groups = None.
Proof.
  induction groups as [|[k t] rest IH]; simpl; intros H; [reflexivity|].
  inversion H as [|? ? Hk Hrest]; subst.
  destruct (String.eqb_spec k tier) as [->|_].
  - now apply key_lt_neq in Hk.
  - now apply IH.
Qed.

Lemma group_of_add (tier key : string) (row : Account)
    (groups : list (string * TierTotals)) :
  StronglySorted key_lt (map fst groups) ->
  group_of tier (add_to_group key row groups)
  = if (key =? tier)%string
    then Some (add_account
                 (match group_of tier groups with
                  | Some t => t | None => no_accounts end) row)
    else group_of tier groups.
Proof.
  induction groups as [|[k0 t0] rest IH]; simpl; intros Hs.
  - destruct (key =? tier)%string; reflexivity.
  - inversion Hs as [|? ? Hrest Hall]; subst.
    destruct (String.compare key k0) eqn:E; simpl.
    + apply String.compare_eq_iff in E. subst k0.
      destruct (key =? tier)%string; reflexivity.
    + destruct (String.eqb_spec key tier) as [->|Hne]; [|reflexivity].
      assert (Hk0 : (k0 =? tier)%string = false).
      { apply String.eqb_neq. intros ->. now apply key_lt_neq in E. }
      rewrite Hk0. rewrite group_of_above; [reflexivity|].
      eapply Forall_impl; [|exact Hall].
      intros k Hk. eapply key_lt_trans; eassumption.
    + destruct (String.eqb_spec k0 tier) as [->|Hne].
      * apply compare_gt_lt in E. apply key_lt_neq in E.
        apply String.eqb_neq in E. rewrite String.eqb_sym, E. reflexivity.
      * now apply IH.
Qed.

Lemma group_of_fold (tier : string) (df : list Account)
    (groups : list (string * TierTotals)) :
  StronglySorted key_lt (map fst groups) ->
  group_of tier
    (fold_left (fun g row => add_to_group (current_tier row) row g) df groups)
  = with_rows (group_of tier groups)
      (filter (fun row => (current_tier row =? tier)%string) df).
Proof.
  revert groups. induction df as [|row df IH]; intros groups Hs; simpl.
  - reflexivity.
  - rewrite IH by now apply add_to_group_sorted.
    rewrite group_of_add by exact Hs.
    destruct (current_tier row =? tier)%string; simpl.
    + destruct (filter _ df); reflexivity.
    + reflexivity.
Qed.

Lemma fold_add_account_totals (rows : list Account) (t : TierTotals) :
  Total_Cost (fold_left add_account rows t)
  == Total_Cost t + series_sum (map monthly_cost rows)
  /\ Account_Count (fold_left add_account rows t)
     = (Account_Count t + List.length rows)%nat.
Proof.
  revert t. induction rows as [|row rows IH]; intros t; simpl.
  - rewrite series_sum_nil. split; [ring|lia].
  - destruct (IH (add_account t row)) as [Hc Hn].
    rewrite Hc, Hn, series_sum_cons. simpl. split; [ring|lia].
Qed.

(** X11: the row of [tier_analysis] for a tier holds the cost and
    count of exactly the accounts of that tier (for "Hot": of
    [hot_tier_accounts]); a tier without accounts has no row. *)
Theorem tier_group_is_the_filtered_table (df : list Account) (tier : string) :
  let rows := filter (fun row => (current_tier row =? tier)%string) df in
  match group_of tier (tier_analysis df) with
  | Some t =>
      rows <> []
      /\ Total_Cost t == series_sum (map monthly_cost rows)
      /\ Account_Count t = List.length rows
  | None => rows = []
  end.
Proof.
  simpl. unfold tier_analysis.
  rewrite group_of_fold by constructor. simpl.
  destruct (filter _ df) as [|row rows] eqn:E; simpl; [reflexivity|].
  split; [discriminate|].
  destruct (fold_add_account_totals rows (add_account no_accounts row))
    as [Hc Hn].
  rewrite Hc, Hn, series_sum_cons. simpl. split; [ring|lia].
Qed.

End TierAnalysisFacts.



Section StorageBounds.
Import Storage.




(** X13: [calculate_savings] prices only moves to a colder tier: a
    non-zero saving means the current and the recommended tier are both
    among Hot, Cool, Archive and the recommended one is strictly
    colder. *)
Theorem savings_only_for_colder_moves (row : Recommended)
    (Hsaves : ~ calculate_savings row == 0) :
  exists i j,
    tier_rank (current_tier row) = Some i
    /\ tier_rank (recommended_tier row) = Some j
    /\ (i < j)%nat.
Proof.
  rewrite calculate_savings_table in Hsaves.
  unfold transition_table in Hsaves. cbn [discount_fraction] in Hsaves.
  repeat match type of Hsaves with
  | context [(?a =? ?b)%string] =>
      destruct (String.eqb_spec a b); try congruence
  end; simpl in Hsaves; try (exfalso; apply Hsaves; reflexivity);
    unfold tier_rank;
    repeat match goal with
    | E : _ = Storage.current_tier _ |- _ => rewrite <- E; clear E
    | E : _ = Storage.recommended_tier _ |- _ => rewrite <- E; clear E
    end; simpl;
    (do 2 eexists; split; [reflexivity | split; [reflexivity | lia]]).
Qed.

End StorageBounds.

Lemma savings_only_for_colder_moves_witness :
  let row := Storage.mkRecommended
               (Storage.mkAccount "backups03" 3200 280.00 "Hot" 45 100) "Cool" in
  ~ Storage.calculate_savings row == 0
  /\ exists i j,
       tier_rank (Storage.current_tier row) = Some i
       /\ tier_rank (Storage.recommended_tier row) = Some j
       /\ (i < j)%nat.
Proof.
  assert (H : ~ Storage.calculate_savings
                  (Storage.mkRecommended
                     (Storage.mkAccount "backups03" 3200 280.00 "Hot" 45 100)
                     "Cool") == 0) by discriminate.
  split; [exact H|].
  exact (savings_only_for_colder_moves _ H).
Defined.

(** ** Blob dashboard: prices and estimates *)

Section BlobCostFacts.
Import BlobCosts.

Lemma dict_getitem_tier_costs (tier : string) :
  match dict_getitem tier_costs tier with
  | Ok price =>
      (tier = "Hot"%string /\ price = 0.018)
      \/ (tier = "Cool"%string /\ price = 0.01)
      \/ (tier = "Archive"%string /\ price = 0.00099)
  | Raise e => e = KeyError /\ ~ priced_tier tier
  end.
Proof.
  unfold tier_costs, priced_tier. cbn [dict_getitem].
  destruct (String.eqb_spec "Hot" tier) as [<-|H1]; [auto|].
  destruct (String.eqb_spec "Cool" tier) as [<-|H2]; [auto|].
  destruct (String.eqb_spec "Archive" tier) as [<-|H3]; [auto 6|].
  split; [reflexivity|]. simpl. intuition congruence.
Qed.

Lemma price_blob_spec (row : RawBlob) :
  match price_blob row with
  | Ok priced =>
      priced_tier (access_tier row)
      /\ Blob.blob_name priced = blob_name row
      /\ Blob.access_tier priced = access_tier row
      /\ Blob.last_accessed_days priced = last_accessed_days row
      /\ Blob.size_gb priced = inject_Z (size_mb row) / 1024
  | Raise e => e = KeyError /\ ~ priced_tier (access_tier row)
  end.
Proof.
  unfold price_blob.
  pose proof (dict_getitem_tier_costs (access_tier row)) as H.
  destruct (dict_getitem tier_costs (access_tier row)) as [price|e]; simpl.
  - repeat split; try reflexivity.
    unfold priced_tier. simpl. destruct H as [[-> _]|[[-> _]|[-> _]]]; auto.
  - exact H.
Qed.

Lemma price_rows_spec (data : list RawBlob) :
  match price_rows data with
  | Ok rows =>
      Forall (fun row => priced_tier (access_tier row)) data
      /\ map Blob.blob_name rows = map blob_name data
      /\ map Blob.access_tier rows = map access_tier data
      /\ map Blob.last_accessed_days rows = map last_accessed_days data
  | Raise e =>
      e = KeyError
      /\ Exists (fun row => ~ priced_tier (access_tier row)) data
  end.
Proof.
  induction data as [|row rest IH]; simpl.
  - repeat split; constructor.
  - pose proof (price_blob_spec row) as H.
    destruct (price_blob row) as [priced|e]; simpl.
    + destruct H as [Hp [Hn [Ht [Hd _]]]].
      destruct (price_rows rest) as [rows|e]; simpl.
      * destruct IH as [IH1 [IH2 [IH3 IH4]]].
        repeat split; [now constructor | | | ]; simpl; congruence.
      * destruct IH as [-> IH]. split; [reflexivity|]. now apply Exists_cons_tl.
    + destruct H as [-> H]. split; [reflexivity|]. now apply Exists_cons_hd.
Qed.

(** X14: Cell 3 prices the table exactly when it has rows and every
    blob is in a tier of [tier_costs], keeping names, tiers and access
    days row by row.  It raises [ValueError] on a table without rows and
    [KeyError] on a blob in an unknown tier. *)
Theorem price_table_spec (data : list RawBlob) :
  match price_table data with
  | Ok rows =>
      data <> []
      /\ Forall (fun row => priced_tier (access_tier row)) data
      /\ map Blob.blob_name rows = map blob_name data
      /\ map Blob.access_tier rows = map access_tier data
      /\ map Blob.last_accessed_days rows = map last_accessed_days data
  | Raise e =>
      (e = ValueError /\ data = [])
      \/ (e = KeyError
          /\ Exists (fun row => ~ priced_tier (access_tier row)) data)
  end.
Proof.
  destruct data as [|row rest]; [left; split; reflexivity|].
  unfold price_table.
  pose proof (price_rows_spec (row :: rest)) as H.
  destruct (price_rows (row :: rest)) as [rows|e].
  - split; [discriminate | exact H].
  - right. exact H.
Qed.

(** X15: for a blob of non-negative size the monthly cost computed
    by Cell 3 is non-negative and never grows when the blob is put in a
    colder tier: Archive <= Cool <= Hot. *)
Theorem colder_tier_never_costs_more (row : RawBlob)
    (Hsize : (0 <= size_mb row)%Z) :
  exists hot cool archive,
    price_blob (in_tier row "Hot") = Ok hot
    /\ price_blob (in_tier row "Cool") = Ok cool
    /\ price_blob (in_tier row "Archive") = Ok archive
    /\ 0 <= Blob.monthly_cost archive
    /\ Blob.monthly_cost archive <= Blob.monthly_cost cool
    /\ Blob.monthly_cost cool <= Blob.monthly_cost hot.
Proof.
  do 3 eexists.
  split; [reflexivity|]. split; [reflexivity|]. split; [reflexivity|].
  simpl.
  assert (H : 0 <= inject_Z (size_mb row) / 1024).
  { apply Qle_shift_div_l; [reflexivity|].
    rewrite Qmult_0_l. change 0 with (inject_Z 0).
    now rewrite <- Zle_Qle. }
  set (gb := inject_Z (size_mb row) / 1024) in *.
  repeat split; nra.
Qed.

Lemma colder_tier_never_costs_more_witness :
  let row := mkRawBlob "backup-0.zip" 2048 120 "Hot" "backups" in
  (0 <= size_mb row)%Z
  /\ exists hot cool,
       price_blob (in_tier row "Hot") = Ok hot
       /\ price_blob (in_tier row "Cool") = Ok cool
       /\ Blob.monthly_cost cool <= Blob.monthly_cost hot.
Proof.
  assert (H : (0 <= 2048)%Z) by lia.
  split; [exact H|].
  destruct (colder_tier_never_costs_more
              (mkRawBlob "backup-0.zip" 2048 120 "Hot" "backups") H)
    as [hot [cool [archive [Hh [Hc [_ [_ [_ Hle]]]]]]]].
  exists hot, cool. auto.
Defined.

(** X16: the savings factors of Cell 5 are conservative against the
    price table of Cell 3: 44% of the Hot cost is at most the true
    Hot-to-Cool difference (so 56% of it covers the Cool cost), and 90%
    of the Cool cost is at most the true Cool-to-Archive difference. *)
Theorem savings_estimates_are_conservative (row : RawBlob)
    (Hsize : (0 <= size_mb row)%Z) :
  exists hot cool archive,
    price_blob (in_tier row "Hot") = Ok hot
    /\ price_blob (in_tier row "Cool") = Ok cool
    /\ price_blob (in_tier row "Archive") = Ok archive
    /\ Blob.monthly_cost hot * 0.44
       <= Blob.monthly_cost hot - Blob.monthly_cost cool
    /\ Blob.monthly_cost cool <= Blob.monthly_cost hot * 0.56
    /\ Blob.monthly_cost cool * 0.90
       <= Blob.monthly_cost cool - Blob.monthly_cost archive.
Proof.
  do 3 eexists.
  split; [reflexivity|]. split; [reflexivity|]. split; [reflexivity|].
  simpl.
  assert (H : 0 <= inject_Z (size_mb row) / 1024).
  { apply Qle_shift_div_l; [reflexivity|].
    rewrite Qmult_0_l. change 0 with (inject_Z 0).
    now rewrite <- Zle_Qle. }
  set (gb := inject_Z (size_mb row) / 1024) in *.
  repeat split; nra.
Qed.

Lemma savings_estimates_are_conservative_witness :
  let row := mkRawBlob "backup-0.zip" 2048 120 "Hot" "backups" in
  (0 <= size_mb row)%Z
  /\ exists hot cool,
       price_blob (in_tier row "Hot") = Ok hot
       /\ price_blob (in_tier row "Cool") = Ok cool
       /\ Blob.monthly_cost hot * 0.44
          <= Blob.monthly_cost hot - Blob.monthly_cost cool.
Proof.
  assert (H : (0 <= 2048)%Z) by lia.
  split; [exact H|].
  destruct (savings_estimates_are_conservative
              (mkRawBlob "backup-0.zip" 2048 120 "Hot" "backups") H)
    as [hot [cool [archive [Hh [Hc [_ [Hle _]]]]]]].
  exists hot, cool. auto.
Defined.

End BlobCostFacts.

Section BlobReportFacts.
Import Blob.

Lemma filter_disjoint_length {A : Type} (p q : A -> bool) (l : list A) :
  (forall a, p a = true -> q a = true -> False) ->
  (List.length (filter p l) + List.length (filter q l) <= List.length l)%nat.
Proof.
  intros H. induction l as [|a l IH]; simpl; [lia|].
  destruct (p a) eqn:Ep; destruct (q a) eqn:Eq; simpl; try lia.
  exfalso. now apply (H a).
Qed.

(** X18: no blob is selected both by [hot_unused] and by
    [cool_unused], so "blobs to optimize" counts no blob twice and never
    exceeds the number of blobs. *)
Theorem hot_and_cool_selections_are_disjoint (df : list Row) :
  (forall b, In b (hot_unused df) -> ~ In b (cool_unused df))
  /\ (List.length (hot_unused df) + List.length (cool_unused df)
      <= List.length df)%nat.
Proof.
  split.
  - intros b Hh Hc.
    apply hot_unused_In in Hh as [_ [Hh _]].
    apply cool_unused_In in Hc as [_ [Hc _]]. congruence.
  - apply filter_disjoint_length. intros b Hp Hq.
    apply andb_true_iff in Hp as [Hp _]. apply andb_true_iff in Hq as [Hq _].
    apply String.eqb_eq in Hp, Hq. congruence.
Qed.

(** X19: when [hot_unused] selects no blob, the final report (Cell 8)
    shows savings of 0 and no recommendation is exported, while the
    total of Cell 5 still is [savings_archive] for the Cool blobs that
    [cool_unused] selects: the final report counts the Hot-to-Cool
    recommendations only. *)
Theorem final_report_leaves_out_archive_savings (df : list Row)
    (Hhot : hot_unused df = []) :
  total_savings df = 0
  /\ recommendations df = []
  /\ total_monthly_savings df
     == (if (0 <? List.length (cool_unused df))%nat
         then savings_archive df else 0).
Proof.
  unfold total_savings, recommendations, total_monthly_savings.
  rewrite Hhot. simpl.
  split; [reflexivity|]. split; [reflexivity|].
  destruct (0 <? List.length (cool_unused df))%nat; ring.
Qed.

Lemma final_report_leaves_out_archive_savings_witness :
  let df := [mkRow "log-0.txt" 204800 200 "Cool" "logs" 2 200] in
  hot_unused df = []
  /\ total_savings df = 0
  /\ total_monthly_savings df == 1.8.
Proof.
  assert (H : hot_unused [mkRow "log-0.txt" 204800 200 "Cool" "logs" 2 200] = [])
    by reflexivity.
  destruct (final_report_leaves_out_archive_savings _ H) as [H0 [_ Hm]].
  split; [exact H|]. split; [exact H0|].
  rewrite Hm. reflexivity.
Defined.

End BlobReportFacts.

(** ** Cost dashboard: the rules *)

Lemma series_sum_filter_le {A : Type} (f : A -> Q) (p : A -> bool) (l : list A) :
  Forall (fun a => 0 <= f a) l ->
  series_sum (map f (filter p l)) <= series_sum (map f l).
Proof.
  induction 1 as [|a l Ha _ IH].
  - apply Qle_refl.
  - cbv beta in Ha. simpl filter.
    destruct (p a); simpl map; rewrite !series_sum_cons; lra.
Qed.

Lemma series_sum_above (c : Q) (xs : list Q) :
  Forall (fun x => c < x) xs -> xs <> [] ->
  inject_Z (Z.of_nat (List.length xs)) * c < series_sum xs.
Proof.
  induction 1 as [|x xs Hx Hxs IH]; intros Hne; [congruence|].
  rewrite series_sum_cons. simpl List.length.
  rewrite Nat2Z.inj_succ, <- Z.add_1_r, inject_Z_plus.
  change (inject_Z 1) with 1.
  destruct xs as [|y ys].
  - simpl. rewrite series_sum_nil. change (inject_Z 0) with 0. lra.
  - assert (Hy : y :: ys <> []) by discriminate.
    specialize (IH Hy). lra.
Qed.


Section DashboardRuleFacts.
Import CostDashboard.

Lemma getitem_contains (s : Series) (key : string) :
  match getitem s key with
  | Ok _ => contains s key = true
  | Raise e => e = KeyError /\ contains s key = false
  end.
Proof.
  induction s as [|[k v] rest IH]; simpl; [auto|].
  destruct (k =? key)%string; simpl; [reflexivity | exact IH].
Qed.

Lemma weekend_usage_ok (services : list string) (weekend_costs weekday_costs : Series) :
  exists recs,
    weekend_usage services weekend_costs weekday_costs = Ok recs
    /\ (List.length recs <= List.length services)%nat
    /\ Forall (fun r => In (Service r) services
                        /\ Priority r = "MEDIUM"%string
                        /\ contains weekend_costs (Service r) = true
                        /\ contains weekday_costs (Service r) = true) recs.
Proof.
  induction services as [|service rest [more [Hmore [Hlen Hall]]]]; simpl.
  - exists []. split; [reflexivity | split; [simpl; lia | constructor]].
  - rewrite Hmore.
    assert (Hall' : Forall (fun r => (service = Service r \/ In (Service r) rest)
                                     /\ Priority r = "MEDIUM"%string
                                     /\ contains weekend_costs (Service r) = true
                                     /\ contains weekday_costs (Service r) = true)
                      more).
    { eapply Forall_impl; [|exact Hall]. simpl. intuition. }
    destruct (contains weekend_costs service) eqn:Ewe;
      destruct (contains weekday_costs service) eqn:Ewd; simpl;
      try (exists more; split; [reflexivity | split; [lia | exact Hall']]).
    pose proof (getitem_contains weekend_costs service) as Gwe.
    pose proof (getitem_contains weekday_costs service) as Gwd.
    destruct (getitem weekend_costs service) as [we|e];
      [|destruct Gwe; congruence].
    destruct (getitem weekday_costs service) as [wd|e];
      [|destruct Gwd; congruence].
    simpl. destruct (Qltb (wd / 64 * 0.5) (we / 26)); simpl.
    + eexists. split; [reflexivity|]. split; [simpl; lia|].
      constructor; [simpl; auto | exact Hall'].
    + exists more. split; [reflexivity | split; [lia | exact Hall']].
Qed.

Lemma weekend_usage_count (services : list string)
    (weekend_costs weekday_costs : Series) (s : string)
    (recs : list Recommendation) :
  weekend_usage services weekend_costs weekday_costs = Ok recs ->
  (List.length (filter (fun r => (Service r =? s)%string) recs)
   <= count_occ string_dec services s)%nat.
Proof.
  revert recs. induction services as [|service rest IH]; intros recs H.
  - simpl in H. inversion H. simpl. lia.
  - simpl in H.
    destruct (weekend_usage_ok rest weekend_costs weekday_costs)
      as [more [Hmore _]].
    rewrite Hmore in H. specialize (IH more Hmore).
    assert (Hskip : recs = more ->
              (List.length (filter (fun r => (Service r =? s)%string) recs)
               <= count_occ string_dec (service :: rest) s)%nat).
    { intros ->. simpl. destruct (string_dec service s); lia. }
    destruct (contains weekend_costs service) eqn:Ewe;
      destruct (contains weekday_costs service) eqn:Ewd; simpl in H;
      try (apply Hskip; now inversion H).
    pose proof (getitem_contains weekend_costs service) as Gwe.
    pose proof (getitem_contains weekday_costs service) as Gwd.
    destruct (getitem weekend_costs service) as [we|e];
      [|destruct Gwe; congruence].
    destruct (getitem weekday_costs service) as [wd|e];
      [|destruct Gwd; congruence].
    simpl in H. destruct (Qltb (wd / 64 * 0.5) (we / 26)); simpl in H;
      [|apply Hskip; now inversion H].
    inversion H; subst recs. simpl.
    destruct (String.eqb_spec service s) as [E|E];
      destruct (string_dec service s); try congruence; simpl; lia.
Qed.

(** X20: rule 2 (weekend usage) never raises: every lookup is guarded
    by the membership test.  It yields at most one MEDIUM recommendation
    for each occurrence of a service in [services] (one per service on
    a list without repetition), each for a service present in both cost
    series. *)
Theorem weekend_rule_never_raises (services : list string)
    (weekend_costs weekday_costs : Series) :
  exists recs,
    weekend_usage services weekend_costs weekday_costs = Ok recs
    /\ (List.length recs <= List.length services)%nat
    /\ (forall s : string,
          (List.length (filter (fun r => (Service r =? s)%string) recs)
           <= count_occ string_dec services s)%nat)
    /\ (NoDup services ->
        forall s : string,
          (List.length (filter (fun r => (Service r =? s)%string) recs)
           <= 1)%nat)
    /\ Forall (fun r => In (Service r) services
                        /\ Priority r = "MEDIUM"%string
                        /\ contains weekend_costs (Service r) = true
                        /\ contains weekday_costs (Service r) = true) recs.
Proof.
  destruct (weekend_usage_ok services weekend_costs weekday_costs)
    as [recs [Hok [Hlen Hall]]].
  exists recs. split; [exact Hok|]. split; [exact Hlen|].
  split; [|split; [|exact Hall]].
  - intros s. now apply (weekend_usage_count services weekend_costs weekday_costs).
  - intros Hnd s.
    pose proof (weekend_usage_count services weekend_costs weekday_costs s recs Hok)
      as Hc.
    pose proof (proj1 (NoDup_count_occ string_dec services) Hnd s). lia.
Qed.

Lemma dev_environment_spec (dev_costs service_costs : Series) :
  match dev_environment dev_costs service_costs with
  | Ok recs =>
      forallb (fun item => contains service_costs (fst item)) dev_costs = true
      /\ (List.length recs <= List.length dev_costs)%nat
  | Raise e =>
      e = KeyError
      /\ forallb (fun item => contains service_costs (fst item)) dev_costs = false
  end.
Proof.
  induction dev_costs as [|[service cost] rest IH]; simpl.
  - split; [reflexivity | lia].
  - pose proof (getitem_contains service_costs service) as G.
    destruct (getitem service_costs service) as [total|e]; simpl.
    + rewrite G. simpl.
      destruct (dev_environment rest service_costs) as [more|e]; simpl.
      * destruct IH as [IH1 IH2].
        destruct (Qltb (total * 0.3) cost); simpl; split; auto; lia.
      * exact IH.
    + destruct G as [-> G]. rewrite G. auto.
Qed.

(** X21: building the recommendations raises only [KeyError], and
    exactly when some service of [dev_costs] is missing from
    [service_costs]. *)
Theorem recommendations_raise_only_on_unknown_dev_service
    (services : list string)
    (service_costs weekend_costs weekday_costs dev_costs : Series)
    (monthly_costs : list Q) :
  match recommendations services service_costs weekend_costs weekday_costs
          dev_costs monthly_costs with
  | Ok recs =>
      forallb (fun item => contains service_costs (fst item)) dev_costs = true
  | Raise e =>
      e = KeyError
      /\ forallb (fun item => contains service_costs (fst item)) dev_costs = false
  end.
Proof.
  unfold recommendations.
  destruct (weekend_usage_ok services weekend_costs weekday_costs)
    as [r2 [-> _]].
  simpl.
  pose proof (dev_environment_spec dev_costs service_costs) as H.
  destruct (dev_environment dev_costs service_costs) as [r3|e]; simpl.
  - exact (proj1 H).
  - exact H.
Qed.

(** *** Rule 1 flags few services *)

Lemma high_cost_length (service_costs : Series) :
  List.length (high_cost service_costs)
  = List.length
      (filter (is_high_cost (series_sum (map snd service_costs))) service_costs).
Proof.
  unfold high_cost, is_high_cost.
  generalize (series_sum (map snd service_costs)). intros total.
  induction service_costs as [|[service cost] rest IH]; simpl; [reflexivity|].
  rewrite length_app, IH.
  destruct (np_gt _ _); reflexivity.
Qed.

Lemma is_high_cost_above (total : Q) (item : string * Q) :
  0 < total -> is_high_cost total item = true -> total / 5 < snd item.
Proof.
  intros Ht. unfold is_high_cost, np_truediv.
  destruct (Qeq_bool total 0) eqn:E.
  { apply Qeq_bool_iff in E. lra. }
  simpl. intros H. apply Qltb_lt in H.
  apply Qlt_shift_div_r; [reflexivity|].
  assert (E2 : snd item == snd item / total * total) by (field; lra).
  set (r := snd item / total) in *.
  assert (Hr : 0.2 < r) by lra.
  rewrite E2. nra.
Qed.

Lemma is_high_cost_zero_total (total : Q) (item : string * Q) :
  total == 0 -> snd item == 0 -> is_high_cost total item = false.
Proof.
  intros Ht Hi. unfold is_high_cost.
  now rewrite np_truediv_zero_zero.
Qed.

(** X22: with no negative service cost, rule 1 flags at most four
    services (each must exceed 20% of the total), and none when the
    total is zero. *)
Theorem high_cost_flags_at_most_four (service_costs : Series)
    (Hnn : Forall (fun item => 0 <= snd item) service_costs) :
  (List.length (high_cost service_costs) <= 4)%nat
  /\ (series_sum (map snd service_costs) == 0 -> high_cost service_costs = []).
Proof.
  assert (Htot : 0 <= series_sum (map snd service_costs)).
  { apply series_sum_nonneg. now apply Forall_map. }
  assert (Hnone : series_sum (map snd service_costs) == 0 ->
                  high_cost service_costs = []).
  { intros Hz.
    assert (Hall : Forall (fun x => x == 0) (map snd service_costs)).
    { apply series_sum_zero_inv; [now apply Forall_map | exact Hz]. }
    rewrite Forall_map in Hall.
    unfold high_cost. revert Hz.
    generalize (series_sum (map snd service_costs)). intros total Hz.
    clear -Hall Hz.
    induction Hall as [|[service cost] rest Hi _ IH]; simpl; [reflexivity|].
    simpl in Hi. rewrite (np_truediv_zero_zero _ _ Hi Hz). simpl. exact IH. }
  split; [|exact Hnone].
  destruct (Qlt_le_dec 0 (series_sum (map snd service_costs))) as [Hpos|Hzero].
  - rewrite high_cost_length.
    set (total := series_sum (map snd service_costs)) in *.
    set (flagged := filter (is_high_cost total) service_costs).
    destruct flagged as [|item rest] eqn:Ef; [simpl; lia|].
    assert (Hsum : series_sum (map snd flagged) <= total).
    { apply series_sum_filter_le. exact Hnn. }
    assert (Habove : inject_Z (Z.of_nat (List.length (map snd flagged))) * (total / 5)
                     < series_sum (map snd flagged)).
    { apply series_sum_above.
      - apply Forall_map. apply Forall_forall. intros it Hit.
        apply filter_In in Hit as [_ Hit]. now apply is_high_cost_above.
      - rewrite Ef. discriminate. }
    rewrite length_map in Habove. rewrite <- Ef.
    destruct (le_lt_dec (List.length flagged) 4) as [Hle|Hgt]; [exact Hle|].
    exfalso.
    assert (H5 : 5 <= inject_Z (Z.of_nat (List.length flagged))).
    { change 5 with (inject_Z 5). rewrite <- Zle_Qle. lia. }
    assert (Hc : 0 < total / 5) by (apply Qlt_shift_div_l; lra).
    assert (E : total == 5 * (total / 5)) by (field).
    nra.
  - rewrite Hnone by lra. simpl. lia.
Qed.

Lemma high_cost_flags_at_most_four_witness :
  Forall (fun item => 0 <= snd item) six_service_costs
  /\ map Service (high_cost six_service_costs)
     = [ "Virtual Machines"; "Storage"; "SQL Database"; "App Service" ]%string
  /\ (List.length (high_cost six_service_costs) <= 4)%nat.
Proof.
  assert (H : Forall (fun item : string * Q => 0 <= snd item) six_service_costs).
  { repeat constructor; discriminate. }
  split; [exact H|]. split; [vm_compute; reflexivity|].
  exact (proj1 (high_cost_flags_at_most_four six_service_costs H)).
Defined.

(** X23: with a non-negative first month, rule 4 flags growing costs
    only when the last month is above the first, with one HIGH
    recommendation for all services; it does flag a positive last
    month after a first month of zero (the growth rate is infinite).
    Fewer than two months flag nothing. *)
Theorem growing_costs_needs_growth (first last : Q) (middle : list Q)
    (Hfirst : 0 <= first) :
  let monthly_costs := first :: middle ++ [last] in
  (growing_costs monthly_costs <> [] ->
   first < last
   /\ map Priority (growing_costs monthly_costs) = ["HIGH"%string]
   /\ map Service (growing_costs monthly_costs) = ["All Services"%string])
  /\ (last <= first -> growing_costs monthly_costs = [])
  /\ (first == 0 -> 0 < last -> growing_costs monthly_costs <> [])
  /\ growing_costs [] = []
  /\ growing_costs [first] = [].
Proof.
  simpl. unfold growing_costs.
  assert (Hlen : (2 <=? List.length (first :: middle ++ [last]))%nat = true).
  { apply Nat.leb_le. simpl. rewrite length_app. simpl. lia. }
  rewrite Hlen.
  assert (Hlast : List.last (first :: middle ++ [last]) 0 = last).
  { change (first :: middle ++ [last]) with ((first :: middle) ++ [last]).
    apply last_last. }
  rewrite Hlast. simpl hd.
  assert (Hflag : np_gt (np_mul (np_truediv (last - first) first) 100) 10 = true ->
                  first < last).
  { unfold np_truediv.
    destruct (Qeq_bool first 0) eqn:E0.
    - apply Qeq_bool_iff in E0.
      destruct (Qeq_bool (last - first) 0) eqn:E1; [simpl; discriminate|].
      destruct (Qltb 0 (last - first)) eqn:E2; [|simpl; discriminate].
      apply Qltb_lt in E2. intros _. lra.
    - apply Qeq_bool_false in E0.
      assert (Hpos : 0 < first) by lra.
      simpl. intros E. apply Qltb_lt in E.
      assert (Eq : last - first == (last - first) / first * 100 * (first / 100))
        by (field; lra).
      assert (Hk : 0 < first / 100) by (apply Qlt_shift_div_l; lra).
      set (g := (last - first) / first * 100) in *.
      nra. }
  split; [|split; [|split; [|split; reflexivity]]].
  - destruct (np_gt _ _); [|intros H; now contradiction H].
    intros _. split; [now apply Hflag | split; reflexivity].
  - intros Hle.
    destruct (np_gt _ _); [|reflexivity].
    specialize (Hflag eq_refl). lra.
  - intros Hz Hl. unfold np_truediv.
    apply Qeq_bool_iff in Hz. rewrite Hz.
    apply Qeq_bool_iff in Hz.
    assert (Hd : 0 < last - first) by lra.
    assert (E1 : Qeq_bool (last - first) 0 = false).
    { destruct (Qeq_bool (last - first) 0) eqn:E; [|reflexivity].
      apply Qeq_bool_iff in E. lra. }
    rewrite E1. apply Qltb_lt in Hd. rewrite Hd. simpl. discriminate.
Qed.

Lemma growing_costs_needs_growth_witness :
  0 <= 100
  /\ growing_costs [100; 105; 120] <> []
  /\ 100 < 120
  /\ map Service (growing_costs [100; 105; 120]) = ["All Services"%string]
  /\ growing_costs [100; 105; 90] = [].
Proof.
  assert (H : 0 <= 100) by discriminate.
  assert (Hflag : growing_costs [100; 105; 120] <> [])
    by (vm_compute; discriminate).
  destruct (growing_costs_needs_growth 100 120 [105] H) as [Hup _].
  destruct (Hup Hflag) as [Hlt [_ Hsvc]].
  split; [exact H|]. split; [exact Hflag|]. split; [exact Hlt|].
  split; [exact Hsvc|].
  apply (proj1 (proj2 (growing_costs_needs_growth 100 90 [105] H))).
  discriminate.
Defined.

End DashboardRuleFacts.

(** ** Cost dashboard: amounts as text *)

Section MoneyTextFacts.
Import CostDashboard.

Lemma round_half_even_of_Z (x : Q) (z : Z) :
  x == inject_Z z -> round_half_even x = z.
Proof.
  intros E. unfold round_half_even.
  assert (Hf : Qfloor x = z).
  { rewrite (Qfloor_comp _ _ E). apply Qfloor_Z. }
  rewrite Hf.
  assert (Hc : Qcompare (x - inject_Z z) (1 # 2) = Lt).
  { rewrite <- Qlt_alt. lra. }
  now rewrite Hc.
Qed.

Lemma rounded_2f_exact (x : Q) (c : Z) :
  x == inject_Z c / 100 -> rounded_2f x == x.
Proof.
  intros E. unfold rounded_2f, cents.
  assert (Habs : Qabs x * 100 == inject_Z (Z.abs c)).
  { destruct (Z_lt_le_dec c 0) as [Hneg|Hpos].
    - assert (Hx : x <= 0).
      { rewrite E. apply Qle_shift_div_r; [reflexivity|].
        rewrite Qmult_0_l. change 0 with (inject_Z 0).
        rewrite <- Zle_Qle. lia. }
      rewrite (Qabs_neg x Hx), Z.abs_neq by lia.
      rewrite inject_Z_opp, E. field.
    - assert (Hx : 0 <= x).
      { rewrite E. apply Qle_shift_div_l; [reflexivity|].
        rewrite Qmult_0_l. change 0 with (inject_Z 0).
        rewrite <- Zle_Qle. lia. }
      rewrite (Qabs_pos x Hx), Z.abs_eq by lia.
      rewrite E. field. }
  rewrite (round_half_even_of_Z _ _ Habs).
  rewrite Z2N.id by apply Z.abs_nonneg.
  cbv zeta.
  destruct (Qltb x 0) eqn:Es; [apply Qltb_lt in Es | apply Qltb_ge in Es].
  - assert (Hc : (c < 0)%Z).
    { apply Z.nle_gt. intros Hc.
      assert (0 <= x); [|lra].
      rewrite E. apply Qle_shift_div_l; [reflexivity|].
      rewrite Qmult_0_l. change 0 with (inject_Z 0). now rewrite <- Zle_Qle. }
    rewrite Z.abs_neq by lia. rewrite inject_Z_opp, E. field.
  - assert (Hc : (0 <= c)%Z).
    { apply Z.nlt_ge. intros Hc.
      assert (x < 0); [|lra].
      rewrite E. apply Qlt_shift_div_r; [reflexivity|].
      rewrite Qmult_0_l. change 0 with (inject_Z 0). now rewrite <- Zlt_Qlt. }
    rewrite Z.abs_eq by lia. rewrite E. reflexivity.
Qed.

(** X24: reading back an amount printed with [f'${x:.2f}'] never
    raises and gives a value within one cent of the amount, and the
    amount itself when it has at most two fractional digits. *)
Theorem money_text_round_trip (x : Q) :
  exists v,
    py_float (remove_char "," (remove_char "$" (format_money x))) = Ok v
    /\ Qabs (v - x) <= 1 # 100
    /\ (forall c : Z, x == inject_Z c / 100 -> v == x).
Proof.
  destruct (parse_format_money x) as [v [Hv Ev]].
  exists v. split; [exact Hv|]. split.
  - rewrite Ev. eapply Qle_trans; [apply rounded_2f_near | discriminate].
  - intros c Hc. rewrite Ev. now apply (rounded_2f_exact x c).
Qed.






End MoneyTextFacts.
